(** * KLVR firmware updater: a shallow embedding of
      [reference/firmware-update-reference.js]

    The script is a straight line of HTTP requests, timers, file-system
    calls and console output.  It is embedded as a tree of events
    ([prog]): every call that leaves the script is one node, whose
    continuation receives the answer of the outside world.  A run against
    a world ([run]) yields the list of events observed, in order, and the
    way the script ended.

    Strings are sequences of code units below 256 (the Latin-1 range of a
    JavaScript string); on this range the default order of
    [Array.prototype.sort], [toLowerCase] and the UTF-8 length of a string
    are written out below.  Numbers that come out of a JSON document are
    IEEE doubles; HTTP status codes are integers. *)

From Stdlib Require Import List String Ascii Bool ZArith NArith Lia.
From Stdlib Require Import Sorting.Sorted Sorting.Permutation.
From Stdlib Require Import Numbers.DecimalString.
From Stdlib Require Import Floats.PrimFloat.
From Stdlib Require Strings.Byte.
Import ListNotations.

Set Warnings "-register-all".

Local Open Scope string_scope.
Local Open Scope Z_scope.

(** ** Strings of the JavaScript runtime *)

Module JsString.

(** [s.startsWith(p)] *)
Definition startsWith (s p : string) : bool := String.prefix p s.

(** [s.endsWith(p)]: the last [p.length] units of [s] are [p]. *)
Definition endsWith (s p : string) : bool :=
  let n := String.length s in
  let m := String.length p in
  (m <=? n)%nat && String.eqb (String.substring (n - m) m s) p.

(** [s.includes(p)]: [p] occurs at some position of [s]. *)
Fixpoint includes (s p : string) : bool :=
  String.prefix p s ||
  match s with
  | EmptyString => false
  | String _ rest => includes rest p
  end.

(** Lower-case mapping of one code unit below 256: A-Z and the Latin-1
    capitals U+00C0..U+00DE (U+00D7, the multiplication sign, apart)
    move up by 32, everything else is unchanged. *)
Definition lower_unit (c : ascii) : ascii :=
  let n := N_of_ascii c in
  if ((65 <=? n) && (n <=? 90) ||
      (192 <=? n) && (n <=? 222) && negb (n =? 215))%N
  then ascii_of_N (n + 32) else c.

(** [s.toLowerCase()] *)
Fixpoint toLowerCase (s : string) : string :=
  match s with
  | EmptyString => EmptyString
  | String c rest => String (lower_unit c) (toLowerCase rest)
  end.

(** UTF-8 encoding of a string, as [req.write(string)] sends it: one
    byte for a unit below 128, two bytes for the others. *)
Fixpoint utf8 (s : string) : list Byte.byte :=
  match s with
  | EmptyString => []
  | String c rest =>
      let n := N_of_ascii c in
      if (n <? 128)%N then byte_of_ascii c :: utf8 rest
      else byte_of_ascii (ascii_of_N (192 + n / 64))
           :: byte_of_ascii (ascii_of_N (128 + n mod 64)) :: utf8 rest
  end.

(** Decimal rendering of an integer, as a template literal prints a
    status code. *)
Definition of_Z (z : Z) : string := NilZero.string_of_int (Z.to_int z).

(** The comparison of the default [sort()]: code unit by code unit. *)
Definition leb (a b : string) : bool := String.leb a b.

(** [a.sort()] on an array of strings, by insertion. *)
Fixpoint insert (x : string) (l : list string) : list string :=
  match l with
  | [] => [x]
  | y :: l' => if leb x y then x :: l else y :: insert x l'
  end.

Fixpoint sort (l : list string) : list string :=
  match l with
  | [] => []
  | x :: l' => insert x (sort l')
  end.

(** [a.reverse()] *)
Definition reverse (l : list string) : list string := List.rev l.

End JsString.

(** ** Values of the JavaScript runtime *)

Module Js.

(** What a [catch] clause can receive in this script; all carry a
    [message]. *)
Inductive error : Type :=
| Error (message : string)
| TypeError (message : string)
| SyntaxError (message : string)
| SystemError (code : string) (message : string).

Definition message (e : error) : string :=
  match e with
  | Error m | TypeError m | SyntaxError m | SystemError _ m => m
  end.

(** A call that returns or throws. *)
Inductive result (A : Type) : Type :=
| Ok (a : A)
| Thrown (e : error).
Arguments Ok {A} a.
Arguments Thrown {A} e.

(** What [JSON.parse] can return, and [undefined]. *)
Inductive value : Type :=
| VUndefined
| VNull
| VBool (b : bool)
| VNum (f : float)
| VStr (s : string)
| VArr (items : list value)
| VObj (props : list (string * value)).

(** ToBoolean *)
Definition truthy (v : value) : bool :=
  match v with
  | VUndefined | VNull => false
  | VBool b => b
  | VNum f => negb (PrimFloat.eqb f 0%float || negb (PrimFloat.eqb f f))
  | VStr s => negb (String.eqb s "")
  | VArr _ | VObj _ => true
  end.

Definition nullish (v : value) : bool :=
  match v with
  | VUndefined | VNull => true
  | _ => false
  end.

Fixpoint own (k : string) (props : list (string * value)) : option value :=
  match props with
  | [] => None
  | (k', v) :: rest => if String.eqb k k' then Some v else own k rest
  end.

(** [v.k], for the property names this script reads ([deviceName],
    [name], [firmwareVersion], [serialNumber], [ip], [macAddress]):
    none of them is inherited from a prototype, so the read is the own
    property of an object and [undefined] on every other value, and it
    throws on [null] and [undefined]. *)
Definition get (v : value) (k : string) : result value :=
  match v with
  | VUndefined =>
      Thrown (TypeError ("Cannot read properties of undefined (reading '" ++ k ++ "')"))
  | VNull =>
      Thrown (TypeError ("Cannot read properties of null (reading '" ++ k ++ "')"))
  | VObj props =>
      Ok (match own k props with Some x => x | None => VUndefined end)
  | _ => Ok VUndefined
  end.

(** [v?.k] *)
Definition get_opt (v : value) (k : string) : result value :=
  if nullish v then Ok VUndefined else get v k.

(** [a || b], [b] already evaluated (it has no effect here). *)
Definition or (a b : value) : value := if truthy a then a else b.

(** [v.toLowerCase()]: only a string has the method. *)
Definition toLowerCase (v : value) : result string :=
  match v with
  | VStr s => Ok (JsString.toLowerCase s)
  | VUndefined | VNull =>
      Thrown (TypeError "Cannot read properties of undefined (reading 'toLowerCase')")
  | _ => Thrown (TypeError "deviceName.toLowerCase is not a function")
  end.

(** Does ToString complete on [v], as a template literal needs?  An
    object of a JSON document converts through
    [Object.prototype.toString] unless an own [toString] property (never
    callable) hides it; an array joins its elements, [null] ones as the
    empty string. *)
Fixpoint stringifies (v : value) : bool :=
  match v with
  | VObj props =>
      match own "toString" props with Some _ => false | None => true end
  | VArr items =>
      (fix all (l : list value) : bool :=
         match l with
         | [] => true
         | x :: l' => stringifies x && all l'
         end) items
  | _ => true
  end.

End Js.

(** ** Events: everything the script asks of the outside world *)

Module Eff.
Import Js.

(** What [req.write] is given: a [Buffer] or a string. *)
Inductive payload : Type :=
| Buffer (bytes : list Byte.byte)
| Text (s : string).

(** Number of bytes [req.write] puts on the wire. *)
Definition byteLength (p : payload) : Z :=
  match p with
  | Buffer bytes => Z.of_nat (List.length bytes)
  | Text s => Z.of_nat (List.length (JsString.utf8 s))
  end.

(** The [options] object of [http.request]. *)
Record options : Type := Options {
  hostname : string;
  port : Z;
  path : string;
  method : string;
  headers : list (string * Z);
  timeout : option Z
}.

(** How one request ends for the script: the response arrived whole
    (['end'] fired), the request emitted ['error'], nothing came
    back (the only case in which a [timeout] option fires
    ['timeout']), or the response began and was cut short: the callback
    of [http.request] was called, these chunks arrived, and the
    connection was closed before the end of the answer, which fires
    ['aborted'] and ['error'] on the response and neither ['end'] nor the
    ['error'] or ['timeout'] of the request. *)
Inductive exchange : Type :=
| Responded (statusCode : Z) (statusMessage : string) (chunks : list string)
| Errored (e : error)
| Silent
| Aborted (statusCode : Z) (statusMessage : string) (chunks : list string).

(** A piece of a console line: literal text, an interpolated value, or
    an error object passed as an argument. *)
Inductive part : Type :=
| Lit (s : string)
| Val (v : value)
| Err (e : error).

Inductive event : Type :=
| HttpRequest (o : options) (body : option payload)
| SetTimeout (ms : Z)
| ConsoleLog (line : list part)
| ConsoleError (line : list part)
| FsReaddir (dir : string)
| FsAccess (file : string)
| FsReadFile (file : string).

Definition answer (e : event) : Type :=
  match e with
  | HttpRequest _ _ => exchange
  | SetTimeout _ => unit
  | ConsoleLog _ | ConsoleError _ => unit
  | FsReaddir _ => result (list string)
  | FsAccess _ => result unit
  | FsReadFile _ => result (list Byte.byte)
  end.

(** An asynchronous computation: it returns, throws (a rejected
    promise), ends the process ([process.exit]), waits on a promise that
    nothing will settle, or performs an event and goes on with the
    answer. *)
Inductive prog (A : Type) : Type :=
| Ret (a : A)
| Throw (e : error)
| Exit (code : Z)
| Never
| Vis (e : event) (k : answer e -> prog A).
Arguments Ret {A} a.
Arguments Throw {A} e.
Arguments Exit {A} code.
Arguments Never {A}.
Arguments Vis {A} e k.

Fixpoint bind {A B : Type} (p : prog A) (f : A -> prog B) : prog B :=
  match p with
  | Ret a => f a
  | Throw e => Throw e
  | Exit c => Exit c
  | Never => Never
  | Vis e k => Vis e (fun x => bind (k x) f)
  end.

(** [try { p } catch (error) { h error }] *)
Fixpoint try_catch {A : Type} (p : prog A) (h : error -> prog A) : prog A :=
  match p with
  | Ret a => Ret a
  | Throw e => h e
  | Exit c => Exit c
  | Never => Never
  | Vis e k => Vis e (fun x => try_catch (k x) h)
  end.

Definition trigger (e : event) : prog (answer e) := Vis e Ret.

(** A synchronous call that may throw. *)
Definition lift {A : Type} (r : result A) : prog A :=
  match r with
  | Ok a => Ret a
  | Thrown e => Throw e
  end.

(** [await] on a promise of the [fs.promises] API. *)
Definition await {A : Type} (e : event) (f : answer e -> result A) : prog A :=
  bind (trigger e) (fun x => lift (f x)).

Definition log (line : list part) : prog unit := trigger (ConsoleLog line).
Definition log_error (line : list part) : prog unit := trigger (ConsoleError line).

(** A template literal that interpolates [v] throws when ToString does. *)
Definition interpolate (v : value) : prog part :=
  if stringifies v then Ret (Val v)
  else Throw (TypeError "Cannot convert object to primitive value").

(** [await new Promise(resolve => setTimeout(resolve, ms))] *)
Definition sleep (ms : Z) : prog unit := trigger (SetTimeout ms).

(** [http.request] refuses, by throwing, a path with a code unit
    outside U+0021..U+00FF. *)
Fixpoint path_ok (s : string) : bool :=
  match s with
  | EmptyString => true
  | String c rest => (33 <=? N_of_ascii c)%N && path_ok rest
  end.

(** [http.request] puts the host name in the [Host] header, and refuses,
    by throwing, a header value with a code unit other than the tab,
    U+0020..U+007E and U+0080..U+00FF. *)
Definition header_unit_ok (c : ascii) : bool :=
  let n := N_of_ascii c in
  ((n =? 9) || ((32 <=? n) && (n <=? 126)) || (128 <=? n))%N.

Fixpoint host_ok (s : string) : bool :=
  match s with
  | EmptyString => true
  | String c rest => header_unit_ok c && host_ok rest
  end.

(** The error of that refusal: its message is
    [Invalid character in header content [?Host?]], with double quotes
    for the question marks. *)
Definition invalid_host : error :=
  TypeError ("Invalid character in header content ["
             ++ String (ascii_of_nat 34) ("Host" ++ String (ascii_of_nat 34) "]")).

(** [http.request(options, ...)], [req.write(body)] if any, [req.end()],
    up to the event that ends the exchange.  [http.request] tests the
    path first, then the host name; when it throws, nothing is sent. *)
Definition request (o : options) (body : option payload) : prog exchange :=
  if path_ok (path o) then
    if host_ok (hostname o) then trigger (HttpRequest o body)
    else Throw invalid_host
  else Throw (TypeError "Request path contains unescaped characters").

(** [always P p]: every event [p] can perform, whatever the answers,
    satisfies [P]. *)
Fixpoint always {A : Type} (P : event -> Prop) (p : prog A) : Prop :=
  match p with
  | Vis e k => P e /\ forall x, always P (k x)
  | _ => True
  end.

(** ** Runs *)

(** One observed event with the answer the world gave. *)
Record obs : Type := Obs { ev : event; ans : answer ev }.

Inductive outcome (A : Type) : Type :=
| Returned (a : A)
| Threw (e : error)
| Exited (code : Z)
| Pending.
Arguments Returned {A} a.
Arguments Threw {A} e.
Arguments Exited {A} code.
Arguments Pending {A}.

(** A world answers every event and moves to its next state. *)
Definition world (W : Type) : Type := W -> forall e : event, answer e * W.

Fixpoint run {W A : Type} (env : world W) (p : prog A) (w : W)
  : list obs * outcome A * W :=
  match p with
  | Ret a => ([], Returned a, w)
  | Throw e => ([], Threw e, w)
  | Exit c => ([], Exited c, w)
  | Never => ([], Pending, w)
  | Vis e k =>
      let '(x, w1) := env w e in
      let '(t, o, w2) := run env (k x) w1 in
      (Obs e x :: t, o, w2)
  end.

(** The observations of a run and the way it ended. *)
Definition observed {W A : Type} (env : world W) (p : prog A) (w : W) : list obs :=
  fst (fst (run env p w)).

Definition ending {W A : Type} (env : world W) (p : prog A) (w : W) : outcome A :=
  snd (fst (run env p w)).

(** *** Views of a list of observations *)

(** The HTTP exchanges: request options, body written, and how it ended. *)
Definition exchange_of (x : obs) : option (options * option payload * exchange) :=
  match x with
  | Obs e a =>
      match e return answer e -> option (options * option payload * exchange) with
      | HttpRequest o b => fun r => Some (o, b, r)
      | _ => fun _ => None
      end a
  end.

Fixpoint exchanges (t : list obs) : list (options * option payload * exchange) :=
  match t with
  | [] => []
  | x :: t' =>
      match exchange_of x with
      | Some r => r :: exchanges t'
      | None => exchanges t'
      end
  end.

(** The files read, with what was read. *)
Definition read_of (x : obs) : option (string * result (list Byte.byte)) :=
  match x with
  | Obs e a =>
      match e return answer e -> option (string * result (list Byte.byte)) with
      | FsReadFile f => fun r => Some (f, r)
      | _ => fun _ => None
      end a
  end.

Fixpoint reads (t : list obs) : list (string * result (list Byte.byte)) :=
  match t with
  | [] => []
  | x :: t' =>
      match read_of x with
      | Some r => r :: reads t'
      | None => reads t'
      end
  end.

(** The lines written with [console.error]. *)
Fixpoint errors (t : list obs) : list (list part) :=
  match t with
  | [] => []
  | x :: t' =>
      match ev x with
      | ConsoleError line => line :: errors t'
      | _ => errors t'
      end
  end.

(** What a device and a clock can see: requests and timers. *)
Definition on_wire (e : event) : bool :=
  match e with
  | HttpRequest _ _ | SetTimeout _ => true
  | _ => false
  end.

Fixpoint wire (t : list obs) : list event :=
  match t with
  | [] => []
  | x :: t' => if on_wire (ev x) then ev x :: wire t' else wire t'
  end.

End Eff.

Declare Scope prog_scope.
Delimit Scope prog_scope with prog.
Notation "x <- p ;; q" := (Eff.bind p (fun x => q))
  (at level 61, p at next level, right associativity) : prog_scope.
Notation "p ;; q" := (Eff.bind p (fun _ => q))
  (at level 61, right associativity) : prog_scope.

(** ** The script *)

Module Updater.
Import Js Eff.
Local Open Scope prog_scope.

(** [CONFIG] *)
Module CONFIG.
Definition DEFAULT_PORT : Z := 8000.
Definition FIRMWARE_PROCESSING_WAIT : Z := 7000.
Definition SEND_REBOOT_WAIT : Z := 1500.
Definition MAIN_BOARD_REBOOT_WAIT : Z := 7000.
Definition REAR_BOARD_REBOOT_WAIT : Z := 20000.
Module ENDPOINTS.
Definition FIRMWARE_CHARGER : string := "/api/v2/device/firmware_charger".
Definition FIRMWARE_REAR : string := "/api/v2/device/firmware_rear".
Definition REBOOT : string := "/api/v2/device/reboot".
Definition INFO : string := "/api/v2/device/info".
End ENDPOINTS.
End CONFIG.

(** [path.join(dir, name)] for a directory path already normalised and
    a plain entry name. *)
Definition path_join (dir name : string) : string := dir ++ "/" ++ name.

(** The two filtered, sorted and reversed listings of
    [findLatestFirmwareFiles]. *)
Definition mainFiles (files : list string) : list string :=
  JsString.reverse (JsString.sort
    (filter (fun f => JsString.startsWith f "main_" && JsString.endsWith f ".signed.bin") files)).

Definition rearFiles (files : list string) : list string :=
  JsString.reverse (JsString.sort
    (filter (fun f => JsString.startsWith f "rear_" && JsString.endsWith f ".signed.bin") files)).

(** The object [{ main, rear }] the locator returns. *)
Record bundle : Type := Bundle { main : string; rear : string }.

(** [findLatestFirmwareFiles()]; [firmwareDir] stands for
    [path.join(__dirname, '..', 'firmware')].  The test
    [mainFiles.length === 0] is the match on the empty list, and
    [mainFiles[0]] the head of the other case; main is tested before
    rear. *)
Definition findLatestFirmwareFiles (firmwareDir : string) : prog bundle :=
  try_catch
    (files <- await (FsReaddir firmwareDir) (fun r => r) ;;
     match mainFiles files with
     | [] => Throw (Error "No main firmware files found in firmware/ directory")
     | main0 :: _ =>
         match rearFiles files with
         | [] => Throw (Error "No rear firmware files found in firmware/ directory")
         | rear0 :: _ =>
             let mainPath := path_join firmwareDir main0 in
             let rearPath := path_join firmwareDir rear0 in
             await (FsAccess mainPath) (fun r => r) ;;
             await (FsAccess rearPath) (fun r => r) ;;
             log [Lit "[FIRMWARE] Found latest main firmware: "; Lit main0] ;;
             log [Lit "[FIRMWARE] Found latest rear firmware: "; Lit rear0] ;;
             Ret (Bundle mainPath rearPath)
         end
     end)
    (fun error =>
       Throw (Error ("Failed to find firmware files: " ++ message error))).

(** The identity object [testDeviceConnection] resolves with. *)
Record identity : Type := Identity {
  ip : string;
  deviceName : value;
  firmwareVersion : value;
  serialNumber : value
}.

(** The double quote character and the line feed, as strings. *)
Definition dquote : string := String (ascii_of_nat 34) EmptyString.

Definition newline : string := String (ascii_of_nat 10) EmptyString.

(** ['data'] listeners append every chunk to [data]. *)
Definition collect (chunks : list string) : string :=
  fold_left String.append chunks "".

(** The object [uploadFirmware] and [rebootDevice] resolve with. *)
Record response : Type := Response {
  ok : bool;
  status : Z;
  statusText : string;
  data : string
}.

Fixpoint for_each {A : Type} (l : list A) (f : A -> prog unit) : prog unit :=
  match l with
  | [] => Ret tt
  | x :: l' => f x ;; for_each l' f
  end.

(** [path.basename(p)] for a path that does not end in a slash: what
    follows the last slash. *)
Fixpoint after_last_slash (p : string) : option string :=
  match p with
  | EmptyString => None
  | String c rest =>
      match after_last_slash rest with
      | Some x => Some x
      | None => if Ascii.eqb c "/" then Some rest else None
      end
  end.

Definition basename (p : string) : string :=
  match after_last_slash p with
  | Some x => x
  | None => p
  end.

Section WithJSON.

(** [JSON.parse] of the runtime. *)
Variable JSON_parse : string -> result value.

(** [testDeviceConnection(ip)] *)
Definition testDeviceConnection (ip : string) : prog (option identity) :=
  let options := Options ip CONFIG.DEFAULT_PORT CONFIG.ENDPOINTS.INFO "GET" [] (Some 3000) in
  x <- request options None ;;
  match x with
  | Responded _ _ chunks =>
      let data := collect chunks in
      try_catch
        (info <- lift (JSON_parse data) ;;
         a <- lift (get info "deviceName") ;;
         deviceName <- (if truthy a then Ret a else lift (get info "name")) ;;
         accepted <- (if truthy deviceName
                      then (l <- lift (toLowerCase deviceName) ;;
                            Ret (JsString.includes l "klvr"))
                      else Ret false) ;;
         if accepted : bool then
           firmwareVersion <- lift (get info "firmwareVersion") ;;
           s <- lift (get info "serialNumber") ;;
           serialNumber <-
             (if truthy s then Ret s
              else (i <- lift (get info "ip") ;;
                    m <- lift (get_opt i "macAddress") ;;
                    Ret (or m (VStr "Unknown")))) ;;
           Ret (Some (Identity ip deviceName firmwareVersion serialNumber))
         else
           shown <- interpolate deviceName ;;
           log [Lit "[DISCOVERY] Device at "; Lit ip; Lit (" has name " ++ dquote); shown;
                Lit (dquote ++ " - not a KLVR device")] ;;
           Ret None)
        (fun error =>
           log [Lit "[DISCOVERY] Failed to parse response from "; Lit ip; Lit ": ";
                Lit (message error)] ;;
           Ret None)
  | Errored _ => Ret None
  | Silent => Ret None
  | Aborted _ _ _ => Never
  end.


(** [getDeviceInfo(deviceIp)]: no [timeout] option and no ['timeout']
    listener, so a silent device leaves the promise unsettled; so does an
    answer cut short, in all four functions, for want of a listener. *)
Definition getDeviceInfo (deviceIp : string) : prog value :=
  let options := Options deviceIp CONFIG.DEFAULT_PORT CONFIG.ENDPOINTS.INFO "GET" [] None in
  log [Lit "[FIRMWARE] Getting device info from "; Lit deviceIp; Lit "..."] ;;
  x <- request options None ;;
  match x with
  | Responded _ _ chunks =>
      let data := collect chunks in
      try_catch
        (info <- lift (JSON_parse data) ;;
         v <- lift (get info "firmwareVersion") ;;
         shown <- interpolate v ;;
         log [Lit "[FIRMWARE] Current firmware version: "; shown] ;;
         Ret info)
        (fun _ => Throw (Error "Failed to parse device info response"))
  | Errored error =>
      log_error [Lit "[FIRMWARE] Device info error:"; Err error] ;;
      Throw error
  | Silent => Never
  | Aborted _ _ _ => Never
  end.

(** [uploadFirmware(deviceIp, firmware, isMainBoard)] *)
Definition uploadFirmware (deviceIp : string) (firmware : list Byte.byte)
    (isMainBoard : bool) : prog response :=
  let path := if isMainBoard then CONFIG.ENDPOINTS.FIRMWARE_CHARGER
              else CONFIG.ENDPOINTS.FIRMWARE_REAR in
  let boardType := if isMainBoard then "main" else "rear" in
  let options := Options deviceIp CONFIG.DEFAULT_PORT path "POST"
                   [("Content-Length", Z.of_nat (List.length firmware))] None in
  log [Lit "[FIRMWARE] Uploading "; Lit boardType; Lit " firmware to: "; Lit deviceIp;
       Lit ", size: "; Lit (JsString.of_Z (Z.of_nat (List.length firmware))); Lit " bytes"] ;;
  x <- request options (Some (Buffer firmware)) ;;
  match x with
  | Responded statusCode statusMessage chunks =>
      log [Lit "[FIRMWARE] Upload response status: "; Lit (JsString.of_Z statusCode)] ;;
      for_each chunks (fun chunk =>
        log [Lit "[FIRMWARE] Upload response chunk: "; Lit chunk]) ;;
      log [Lit "[FIRMWARE] Upload complete: "; Lit (collect chunks)] ;;
      Ret (Response (statusCode =? 200) statusCode statusMessage (collect chunks))
  | Errored error =>
      log_error [Lit "[FIRMWARE] Upload error:"; Err error] ;;
      Throw error
  | Silent => Never
  | Aborted statusCode _ chunks =>
      log [Lit "[FIRMWARE] Upload response status: "; Lit (JsString.of_Z statusCode)] ;;
      for_each chunks (fun chunk =>
        log [Lit "[FIRMWARE] Upload response chunk: "; Lit chunk]) ;;
      Never
  end.

(** [rebootDevice(deviceIp, board)] *)
Definition rebootDevice (deviceIp : string) (board : string) : prog response :=
  let options := Options deviceIp CONFIG.DEFAULT_PORT
                   (CONFIG.ENDPOINTS.REBOOT ++ "?board=" ++ board) "POST"
                   [("Content-Length", 4)] None in
  log [Lit "[FIRMWARE] Rebooting "; Lit board; Lit " board on device: "; Lit deviceIp] ;;
  x <- request options (Some (Text board)) ;;
  match x with
  | Responded statusCode statusMessage chunks =>
      Ret (Response (statusCode =? 200) statusCode statusMessage (collect chunks))
  | Errored error =>
      log_error [Lit "[FIRMWARE] Reboot error:"; Err error] ;;
      Throw error
  | Silent => Never
  | Aborted _ _ _ => Never
  end.

(** [executeFirmwareUpdate(deviceIp, mainFirmwarePath, rearFirmwarePath)] *)
Definition executeFirmwareUpdate (deviceIp mainFirmwarePath rearFirmwarePath : string)
  : prog unit :=
  try_catch
    (log [Lit "[FIRMWARE] Getting device info..."] ;;
     deviceInfo <- getDeviceInfo deviceIp ;;
     v <- lift (get deviceInfo "firmwareVersion") ;;
     shown <- interpolate v ;;
     log [Lit "[FIRMWARE] Current firmware version: "; shown] ;;

     log [Lit "[FIRMWARE] Reading firmware files..."] ;;
     mainFirmware <- await (FsReadFile mainFirmwarePath) (fun r => r) ;;
     rearFirmware <- await (FsReadFile rearFirmwarePath) (fun r => r) ;;

     log [Lit "[FIRMWARE] Starting main board update..."] ;;
     mainResponse <- uploadFirmware deviceIp mainFirmware true ;;
     (if negb (ok mainResponse)
      then Throw (Error ("Main board firmware upload failed: "
                         ++ JsString.of_Z (status mainResponse)))
      else Ret tt) ;;

     log [Lit "[FIRMWARE] Waiting for main board firmware processing..."] ;;
     sleep CONFIG.FIRMWARE_PROCESSING_WAIT ;;

     log [Lit "[FIRMWARE] Rebooting main board..."] ;;
     mainRebootResponse <- rebootDevice deviceIp "main" ;;
     (if negb (ok mainRebootResponse)
      then Throw (Error ("Main board reboot failed: "
                         ++ JsString.of_Z (status mainRebootResponse)))
      else Ret tt) ;;

     log [Lit "[FIRMWARE] Waiting for reboot message to propagate..."] ;;
     sleep CONFIG.SEND_REBOOT_WAIT ;;

     log [Lit "[FIRMWARE] Starting rear board update..."] ;;
     rearResponse <- uploadFirmware deviceIp rearFirmware false ;;
     (if negb (ok rearResponse)
      then Throw (Error ("Rear board firmware upload failed: "
                         ++ JsString.of_Z (status rearResponse)))
      else Ret tt) ;;

     log [Lit "[FIRMWARE] Waiting for rear board firmware processing..."] ;;
     sleep CONFIG.FIRMWARE_PROCESSING_WAIT ;;

     log [Lit "[FIRMWARE] Rebooting rear board..."] ;;
     rearRebootResponse <- rebootDevice deviceIp "rear" ;;
     (if negb (ok rearRebootResponse)
      then Throw (Error ("Rear board reboot failed: "
                         ++ JsString.of_Z (status rearRebootResponse)))
      else Ret tt) ;;

     log [Lit "[FIRMWARE] Waiting for rear board to complete reboot..."] ;;
     sleep CONFIG.REAR_BOARD_REBOOT_WAIT ;;

     log [Lit "[FIRMWARE] Firmware update completed successfully!"] ;;

     try_catch
       (newDeviceInfo <- getDeviceInfo deviceIp ;;
        v' <- lift (get newDeviceInfo "firmwareVersion") ;;
        shown' <- interpolate v' ;;
        log [Lit "[FIRMWARE] New firmware version: "; shown'])
       (fun _ =>
          log [Lit "[FIRMWARE] Device still rebooting, cannot get new firmware version yet"]))
    (fun error =>
       log_error [Lit "[FIRMWARE] Update failed:"; Lit (message error)] ;;
       Throw error).

(** The command line interface; [args] is [process.argv.slice(2)].  A
    run that returns leaves the process to end with status 0. *)
Definition cli (firmwareDir : string) (args : list string) : prog unit :=
  let targetIp := match args with
                  | a :: _ => if String.eqb a "" then "10.110.73.155" else a
                  | [] => "10.110.73.155"
                  end in
  try_catch
    (firmwareFiles <- findLatestFirmwareFiles firmwareDir ;;
     log [Lit "[FIRMWARE] Firmware files validated:"] ;;
     log [Lit "[FIRMWARE] Main firmware: "; Lit (basename (main firmwareFiles))] ;;
     log [Lit "[FIRMWARE] Rear firmware: "; Lit (basename (rear firmwareFiles))] ;;

     log [Lit "[DISCOVERY] Testing connection to device at "; Lit targetIp; Lit "..."] ;;
     deviceInfo <- testDeviceConnection targetIp ;;
     match deviceInfo with
     | None =>
         log_error [Lit "[DISCOVERY] Failed to connect to device at "; Lit targetIp] ;;
         log_error [Lit "Make sure the device is powered on and accessible at this IP address"] ;;
         Exit 1
     | Some deviceInfo =>
         log [Lit "[DISCOVERY] Successfully connected to device: ";
              Val (deviceName deviceInfo); Lit " at "; Lit targetIp] ;;
         log [Lit (newline ++ "[FIRMWARE] Starting update for device: ");
              Val (deviceName deviceInfo); Lit " at "; Lit targetIp] ;;
         executeFirmwareUpdate targetIp (main firmwareFiles) (rear firmwareFiles) ;;
         log [Lit "[FIRMWARE] Successfully updated device: ";
              Val (deviceName deviceInfo); Lit " at "; Lit targetIp] ;;
         log [Lit (newline ++ "[FIRMWARE] Update process completed")]
     end)
    (fun error =>
       log_error [Lit "[FIRMWARE] Error:"; Lit (message error)] ;;
       Exit 1).

End WithJSON.

End Updater.

(** ** Scripted worlds, for concrete runs *)

Module Mock.
Import Js Eff Updater.

(** A device that answers the requests it receives from a list, in
    order, and is silent afterwards; a directory with a fixed listing;
    files that all hold the same bytes. *)
Record script : Type := Script {
  listing : result (list string);
  content : result (list Byte.byte);
  replies : list exchange
}.

Definition scripted : world script :=
  fun w e =>
    match e as e0 return answer e0 * script with
    | HttpRequest _ _ =>
        (match replies w with [] => Silent | x :: _ => x end,
         Script (listing w) (content w) (List.tl (replies w)))
    | SetTimeout _ => (tt, w)
    | ConsoleLog _ => (tt, w)
    | ConsoleError _ => (tt, w)
    | FsReaddir _ => (listing w, w)
    | FsAccess _ => (Ok tt, w)
    | FsReadFile _ => (content w, w)
    end.

(** Two documents and the parser that knows them. *)
Definition quoted (s : string) : string := dquote ++ s ++ dquote.

Definition doc_charger : string :=
  "{" ++ quoted "deviceName" ++ ":" ++ quoted "KLVR Charger Pro" ++ ","
      ++ quoted "firmwareVersion" ++ ":" ++ quoted "1.8.3" ++ ","
      ++ quoted "ip" ++ ":{" ++ quoted "macAddress" ++ ":" ++ quoted "AA:BB:CC:00:11:22" ++ "}}".

Definition doc_printer : string :=
  "{" ++ quoted "name" ++ ":" ++ quoted "Office printer" ++ "}".

Definition charger : value :=
  VObj [("deviceName", VStr "KLVR Charger Pro");
        ("firmwareVersion", VStr "1.8.3");
        ("ip", VObj [("macAddress", VStr "AA:BB:CC:00:11:22")])].

Definition printer : value := VObj [("name", VStr "Office printer")].

Definition parse (s : string) : result value :=
  if String.eqb s doc_charger then Ok charger
  else if String.eqb s doc_printer then Ok printer
  else Thrown (SyntaxError "Unexpected token in JSON").

Definition ok200 (body : string) : exchange := Responded 200 "OK" [body].

Definition firmware : list Byte.byte := [Byte.x4b; Byte.x4c; Byte.x56; Byte.x52].

(** A firmware directory without a single file. *)
Definition empty_dir : script := Script (Ok []) (Ok firmware) [].

(** A firmware directory with a main image and no rear image. *)
Definition no_rear : script := Script (Ok ["main_20230215.signed.bin"]) (Ok firmware) [].

(** Version 10 against version 9: the order is that of the text. *)
Definition unpadded : script :=
  Script (Ok ["main_9.signed.bin"; "main_10.signed.bin"; "rear_2.signed.bin"])
         (Ok firmware) [].

(** A charger in the middle of an update: the six calls of the
    orchestrator are answered with 200. *)
Definition updating : script :=
  Script (Ok []) (Ok firmware)
         [ok200 doc_charger; ok200 "ok"; ok200 "ok"; ok200 "ok"; ok200 "ok";
          ok200 doc_charger].

(** A charger that refuses the main firmware with status 500. *)
Definition main_upload_500 : script :=
  Script (Ok []) (Ok firmware)
         [ok200 doc_charger; Responded 500 "Internal Server Error" ["flash busy"]].

(** A charger that refuses the reboot of the rear board with status 503. *)
Definition rear_reboot_503 : script :=
  Script (Ok []) (Ok firmware)
         [ok200 doc_charger; ok200 "ok"; ok200 "ok"; ok200 "ok";
          Responded 503 "Service Unavailable" []].

(** A charger whose info endpoint answers with status 500 and a
    description all the same, and everything else with 200. *)
Definition info_500 : script :=
  Script (Ok []) (Ok firmware)
         [Responded 500 "Internal Server Error" [doc_charger];
          ok200 "ok"; ok200 "ok"; ok200 "ok"; ok200 "ok"; ok200 doc_charger].






(** A healthy charger: every call is answered with 200. *)
Definition healthy : script :=
  Script (Ok ["main_20230101.signed.bin"; "README.md"; "rear_20230215.signed.bin";
              "main_20230215.signed.bin"; "rear_20230101.signed.bin"])
         (Ok firmware)
         [ok200 doc_charger; ok200 doc_charger; ok200 "ok"; ok200 "ok"; ok200 "ok";
          ok200 "ok"; ok200 doc_charger].

(** The firmware files cannot be read. *)
Definition unreadable : script :=
  Script (Ok []) (Thrown (SystemError "EACCES" "EACCES: permission denied, open"))
         [ok200 doc_charger].

(** The charger resets the connection during the main reboot. *)
Definition reset_on_reboot : script :=
  Script (Ok []) (Ok firmware)
         [ok200 doc_charger; ok200 "ok";
          Errored (SystemError "ECONNRESET" "socket hang up")].

(** The charger stops answering after the main upload. *)
Definition gone_after_upload : script :=
  Script (Ok []) (Ok firmware) [ok200 doc_charger; ok200 "ok"].

(** The charger is still rebooting when the new version is asked for. *)
Definition still_rebooting : script :=
  Script (Ok []) (Ok firmware)
         [ok200 doc_charger; ok200 "ok"; ok200 "ok"; ok200 "ok"; ok200 "ok";
          Errored (SystemError "ECONNREFUSED" "connect ECONNREFUSED 10.0.0.7:8000")].

(** A charger too busy to reboot. *)
Definition busy : script :=
  Script (Ok []) (Ok firmware) [Responded 503 "Service Unavailable" []].

(** There is no firmware directory. *)
Definition missing_dir : script :=
  Script (Thrown (SystemError "ENOENT" "ENOENT: no such file or directory, scandir"))
         (Ok firmware) [].

(** Firmware is there, nobody answers at the address. *)
Definition offline : script :=
  Script (Ok ["main_20230215.signed.bin"; "rear_20230215.signed.bin"]) (Ok firmware) [].

(** Firmware is there, the charger answers the probe and the info fetch
    and refuses the main firmware with status 500. *)
Definition refusing : script :=
  Script (Ok ["main_20230215.signed.bin"; "rear_20230215.signed.bin"]) (Ok firmware)
         [ok200 doc_charger; ok200 doc_charger;
          Responded 500 "Internal Server Error" ["flash busy"]].

(** An address with a carriage return at its end, as a line of a file
    with CRLF line ends gives it. *)
Definition with_cr : string := "127.0.0.1" ++ String (ascii_of_nat 13) "".

(** A charger that closes the connection in the middle of its answer
    to the main upload. *)
Definition upload_cut : script :=
  Script (Ok []) (Ok firmware) [ok200 doc_charger; Aborted 200 "OK" ["o"]].

(** A host that closes the connection in the middle of its answer. *)
Definition probe_cut : script :=
  Script (Ok []) (Ok []) [Aborted 200 "OK" ["{"]].

(** Firmware is there, and the host closes the connection in the middle
    of its answer to the probe. *)
Definition cut_short : script :=
  Script (Ok ["main_20230215.signed.bin"; "rear_20230215.signed.bin"]) (Ok firmware)
         [Aborted 200 "OK" ["{"]].

(** A world like [scripted] in which no file passes [fs.access]. *)
Definition locked : world script :=
  fun w e =>
    match e as e0 return answer e0 * script with
    | FsAccess _ => (Thrown (SystemError "EACCES" "EACCES: permission denied, access"), w)
    | e0 => scripted w e0
    end.

End Mock.


(** ** Vocabulary of the statements *)

Module Spec.
Import Js Eff.

(** The requests of the update protocol, written out. *)
Definition GET_info (ip : string) : event :=
  HttpRequest (Options ip 8000 "/api/v2/device/info" "GET" [] None) None.

Definition POST_firmware (ip path : string) (firmware : list Byte.byte) : event :=
  HttpRequest
    (Options ip 8000 path "POST" [("Content-Length", Z.of_nat (List.length firmware))] None)
    (Some (Buffer firmware)).

Definition POST_reboot (ip board : string) : event :=
  HttpRequest
    (Options ip 8000 ("/api/v2/device/reboot?board=" ++ board) "POST" [("Content-Length", 4)] None)
    (Some (Text board)).

(** The request of the prober: the info endpoint, with a timeout of 3000 ms. *)
Definition GET_probe (ip : string) : options :=
  Options ip 8000 "/api/v2/device/info" "GET" [] (Some 3000).

(** The ten steps of a complete update, as the device and the clock
    see them. *)
Definition sequence (ip : string) (mainFirmware rearFirmware : list Byte.byte) : list event :=
  [ GET_info ip;
    POST_firmware ip "/api/v2/device/firmware_charger" mainFirmware;
    SetTimeout 7000;
    POST_reboot ip "main";
    SetTimeout 1500;
    POST_firmware ip "/api/v2/device/firmware_rear" rearFirmware;
    SetTimeout 7000;
    POST_reboot ip "rear";
    SetTimeout 20000;
    GET_info ip ].

(** A property read that never throws: [undefined] where the script's
    read would find nothing or throw. *)
Definition prop (v : value) (k : string) : value :=
  match v with
  | VObj props => match own k props with Some x => x | None => VUndefined end
  | _ => VUndefined
  end.




(** The header a request carries under a given name. *)
Fixpoint header (name : string) (hs : list (string * Z)) : option Z :=
  match hs with
  | [] => None
  | (n, v) :: rest => if String.eqb name n then Some v else header name rest
  end.

(** The two families of firmware file names. *)
Definition firmware_name (prefix f : string) : bool :=
  JsString.startsWith f prefix && JsString.endsWith f ".signed.bin".

Definition main_set (files : list string) : list string :=
  filter (firmware_name "main_") files.

Definition rear_set (files : list string) : list string :=
  filter (firmware_name "rear_") files.

(** The requests of the protocol with the device at [ip]: the probe, the
    info fetch, the two uploads and the two reboots. *)
Definition in_protocol (ip : string) (e : event) : Prop :=
  match e with
  | HttpRequest o b =>
      (o, b) = (GET_probe ip, None) \/
      e = GET_info ip \/
      (exists firmware, e = POST_firmware ip "/api/v2/device/firmware_charger" firmware) \/
      (exists firmware, e = POST_firmware ip "/api/v2/device/firmware_rear" firmware) \/
      e = POST_reboot ip "main" \/
      e = POST_reboot ip "rear"
  | _ => True
  end.

(** The device the command line addresses: its first argument, or the
    office charger when there is none or it is empty. *)
Definition target (args : list string) : string :=
  match args with
  | a :: _ => if String.eqb a "" then "10.110.73.155" else a
  | [] => "10.110.73.155"
  end.

(** The name the orchestrator gives, in its error messages, to the step
    that posts to a given path. *)
Definition step_name (path : string) : option string :=
  if String.eqb path "/api/v2/device/firmware_charger" then Some "Main board firmware upload"
  else if String.eqb path "/api/v2/device/reboot?board=main" then Some "Main board reboot"
  else if String.eqb path "/api/v2/device/firmware_rear" then Some "Rear board firmware upload"
  else if String.eqb path "/api/v2/device/reboot?board=rear" then Some "Rear board reboot"
  else None.

(** The order of the default [sort()], as a relation. *)
Definition le (a b : string) : Prop := JsString.leb a b = true.

(** [m] is an element of [l] that no element of [l] exceeds in the
    lexicographic order of code units. *)
Definition greatest (l : list string) (m : string) : Prop :=
  In m l /\ forall f, In f l -> String.leb f m = true.

(** [m] is the latest firmware file of a family in a listing: a name of
    the listing that starts with the prefix of the family and ends with
    [.signed.bin], and that no such name of the listing exceeds. *)
Definition latest (prefix : string) (files : list string) (m : string) : Prop :=
  In m files /\
  (exists middle, m = prefix ++ middle ++ ".signed.bin") /\
  forall f middle, In f files -> f = prefix ++ middle ++ ".signed.bin" ->
                   String.leb f m = true.

(** An ending of a request that settles none of the promises of the
    update: no answer at all, or an answer cut short. *)
Definition unsettled (x : exchange) : Prop :=
  x = Silent \/ exists st msg chunks, x = Aborted st msg chunks.

End Spec.

(** ** What the runs of each function have in common *)

Module Shape.
Import Js Eff Updater Spec.
Local Open Scope list_scope.

(** The files checked with [fs.access], with the answers. *)
Definition access_of (x : obs) : option (string * result unit) :=
  match x with
  | Obs e a =>
      match e return answer e -> option (string * result unit) with
      | FsAccess f => fun r => Some (f, r)
      | _ => fun _ => None
      end a
  end.

Fixpoint accesses (t : list obs) : list (string * result unit) :=
  match t with
  | [] => []
  | x :: t' =>
      match access_of x with
      | Some r => r :: accesses t'
      | None => accesses t'
      end
  end.

(** The directories listed with [fs.readdir], with the answers. *)
Definition listing_of (x : obs) : option (string * result (list string)) :=
  match x with
  | Obs e a =>
      match e return answer e -> option (string * result (list string)) with
      | FsReaddir d => fun r => Some (d, r)
      | _ => fun _ => None
      end a
  end.

Fixpoint listings (t : list obs) : list (string * result (list string)) :=
  match t with
  | [] => []
  | x :: t' =>
      match listing_of x with
      | Some r => r :: listings t'
      | None => listings t'
      end
  end.

(** An event that is not a call of [fs.access] or [fs.readdir]. *)
Definition no_access (e : event) : Prop :=
  match e with
  | FsAccess _ | FsReaddir _ => False
  | _ => True
  end.

(** [ends_with l x]: [x] is the last element of [l]. *)
Definition ends_with {A : Type} (l : list A) (x : A) : Prop :=
  exists before, l = before ++ [x].

(** What the views of a run of the update satisfy, whatever the world. *)
Definition update_shape (ip mainPath rearPath : string) (wi : list event)
    (ex : list (options * option payload * exchange))
    (rd : list (string * result (list Byte.byte))) (er : list (list part))
    (o : outcome unit) : Prop :=
  (exists m r n, wi = firstn n (sequence ip m r)) /\
  (forall f e, In (f, Thrown e) rd -> o = Threw e /\ wi = [GET_info ip]) /\
  (In (SetTimeout 20000) wi ->
   o = Returned tt \/
   (o = Pending /\ exists op b x, ends_with ex (op, b, x) /\ unsettled x)) /\
  (forall op b e, In (op, b, Errored e) ex -> ~ In (SetTimeout 20000) wi ->
                  o = Threw e /\ ends_with ex (op, b, Errored e)) /\
  (forall op b x, In (op, b, x) ex -> unsettled x ->
                  o = Pending /\ ends_with ex (op, b, x)) /\
  (forall e, o = Threw e ->
             ends_with er [Lit "[FIRMWARE] Update failed:"; Lit (message e)]) /\
  (forall c, o <> Exited c) /\
  (o = Returned tt ->
   exists m r, wi = sequence ip m r /\ rd = [(mainPath, Ok m); (rearPath, Ok r)]) /\
  (forall op b st msg chunks name,
     In (op, b, Responded st msg chunks) ex -> step_name (path op) = Some name -> st <> 200 ->
     o = Threw (Error (name ++ " failed: " ++ JsString.of_Z st)%string)).

(** What the views of a run of the locator satisfy. *)
Definition locator_shape (dir : string)
    (ls : list (string * result (list string))) (ac : list (string * result unit))
    (ex : list (options * option payload * exchange)) (wi : list event)
    (rd : list (string * result (list Byte.byte))) (er : list (list part))
    (o : outcome bundle) : Prop :=
  ex = [] /\ wi = [] /\ rd = [] /\ er = [] /\
  ((exists files m r,
      o = Returned (Bundle (path_join dir m) (path_join dir r)) /\
      ls = [(dir, Ok files)] /\ latest "main_" files m /\ latest "rear_" files r /\
      ac = [(path_join dir m, Ok tt); (path_join dir r, Ok tt)]) \/
   (exists m, o = Threw (Error ("Failed to find firmware files: " ++ m)%string))) /\
  (forall f e, In (f, Thrown e) ac ->
               o = Threw (Error ("Failed to find firmware files: " ++ message e)%string) /\
               ends_with ac (f, Thrown e)).

(** What the views of a run of the prober satisfy: the address is
    refused, or one request is made, and the prober returns, unless the
    answer is cut short. *)
Definition probe_shape (ip : string)
    (ls : list (string * result (list string))) (ac : list (string * result unit))
    (ex : list (options * option payload * exchange)) (wi : list event)
    (rd : list (string * result (list Byte.byte))) (er : list (list part))
    (o : outcome (option identity)) : Prop :=
  ls = [] /\ ac = [] /\ rd = [] /\ er = [] /\
  ((ex = [] /\ wi = [] /\ host_ok ip = false /\ o = Threw invalid_host) \/
   (exists x,
      host_ok ip = true /\
      ex = [(GET_probe ip, None, x)] /\ wi = [HttpRequest (GET_probe ip) None] /\
      ((o = Returned None /\ forall st msg chunks, x <> Aborted st msg chunks) \/
       (exists d st msg chunks, o = Returned (Some d) /\ x = Responded st msg chunks) \/
       (exists st msg chunks, o = Pending /\ x = Aborted st msg chunks)))).

(** The two lines written after a probe that found no charger. *)
Definition advice (ip : string) : list (list part) :=
  [[Lit "[DISCOVERY] Failed to connect to device at "; Lit ip];
   [Lit "Make sure the device is powered on and accessible at this IP address"]].

(** What a run of the command line satisfies: it stops before any
    request, or it has found the firmware and then stops after the probe,
    hangs on the probe, or runs the update. *)
Definition cli_shape {W : Type} (env : world W) (JSON_parse : string -> result value)
    (dir ip : string) (t : list obs) (o : outcome unit) : Prop :=
  (exchanges t = [] /\ wire t = [] /\ o = Exited 1 /\
   exists msg, errors t = [[Lit "[FIRMWARE] Error:"; Lit msg]]) \/
  (exists files m r found rest x,
     t = found ++ rest /\
     host_ok ip = true /\
     listings found = [(dir, Ok files)] /\
     latest "main_" files m /\ latest "rear_" files r /\
     accesses found = [(path_join dir m, Ok tt); (path_join dir r, Ok tt)] /\
     exchanges found = [] /\ wire found = [] /\ reads found = [] /\
     listings rest = [] /\ accesses rest = [] /\
     ((exchanges rest = [(GET_probe ip, None, x)] /\
       wire rest = [HttpRequest (GET_probe ip) None] /\
       (forall st msg chunks, x <> Aborted st msg chunks) /\
       o = Exited 1 /\ errors t = advice ip) \/
      (exists st msg chunks,
         x = Aborted st msg chunks /\
         exchanges rest = [(GET_probe ip, None, x)] /\
         o = Pending /\ errors t = []) \/
      (exists tU oU w1 wU st msg chunks,
         x = Responded st msg chunks /\
         run env (executeFirmwareUpdate JSON_parse ip (path_join dir m) (path_join dir r)) w1 =
         (tU, oU, wU) /\
         exchanges rest = (GET_probe ip, None, x) :: exchanges tU /\
         wire rest = HttpRequest (GET_probe ip) None :: wire tU /\
         reads rest = reads tU /\
         match oU with
         | Returned _ => o = Returned tt /\ errors t = errors tU
         | Threw e =>
             o = Exited 1 /\
             errors t = errors tU ++ [[Lit "[FIRMWARE] Error:"; Lit (message e)]]
         | Exited c => o = Exited c
         | Pending => o = Pending
         end))).

End Shape.

(** * Properties *)

Import Js Eff Updater Spec Shape.
Local Open Scope prog_scope.
Local Open Scope list_scope.

(** ** Runs of composed programs *)

Section Runs.
Context {W : Type} (env : world W).

Lemma run_bind {A B : Type} (p : prog A) (f : A -> prog B) (w : W) :
  run env (bind p f) w =
  let '(t1, o1, w1) := run env p w in
  match o1 with
  | Returned a => let '(t2, o2, w2) := run env (f a) w1 in ((t1 ++ t2)%list, o2, w2)
  | Threw e => (t1, Threw e, w1)
  | Exited c => (t1, Exited c, w1)
  | Pending => (t1, Pending, w1)
  end.
Proof.
  revert w; induction p as [a|e|c| |e k IH]; intros w; cbn [bind run].
  - destruct (run env (f a) w) as [[t2 o2] w2]; reflexivity.
  - reflexivity.
  - reflexivity.
  - reflexivity.
  - destruct (env w e) as [x w1]. rewrite IH.
    destruct (run env (k x) w1) as [[t1 o1] w2].
    destruct o1; try reflexivity.
    destruct (run env (f a) w2) as [[t2 o2] w3]; reflexivity.
Qed.

Lemma run_try_catch {A : Type} (p : prog A) (h : error -> prog A) (w : W) :
  run env (try_catch p h) w =
  let '(t1, o1, w1) := run env p w in
  match o1 with
  | Threw e => let '(t2, o2, w2) := run env (h e) w1 in ((t1 ++ t2)%list, o2, w2)
  | _ => (t1, o1, w1)
  end.
Proof.
  revert w; induction p as [a|e|c| |e k IH]; intros w; cbn [try_catch run].
  - reflexivity.
  - destruct (run env (h e) w) as [[t2 o2] w2]; reflexivity.
  - reflexivity.
  - reflexivity.
  - destruct (env w e) as [x w1]. rewrite IH.
    destruct (run env (k x) w1) as [[t1 o1] w2].
    destruct o1; try reflexivity.
    destruct (run env (h e0) w2) as [[t2 o2] w3]; reflexivity.
Qed.

Lemma exchanges_app (t1 t2 : list obs) :
  exchanges (t1 ++ t2) = exchanges t1 ++ exchanges t2.
Proof.
  induction t1 as [|x t1 IH]; cbn [exchanges app]; [reflexivity|].
  destruct (exchange_of x); rewrite IH; reflexivity.
Qed.

Lemma reads_app (t1 t2 : list obs) : reads (t1 ++ t2) = reads t1 ++ reads t2.
Proof.
  induction t1 as [|x t1 IH]; cbn [reads app]; [reflexivity|].
  destruct (read_of x); rewrite IH; reflexivity.
Qed.

Lemma errors_app (t1 t2 : list obs) : errors (t1 ++ t2) = errors t1 ++ errors t2.
Proof.
  induction t1 as [|x t1 IH]; cbn [errors app]; [reflexivity|].
  destruct (ev x); rewrite IH; reflexivity.
Qed.

Lemma wire_app (t1 t2 : list obs) : wire (t1 ++ t2) = wire t1 ++ wire t2.
Proof.
  induction t1 as [|x t1 IH]; cbn [wire app]; [reflexivity|].
  destruct (on_wire (ev x)); rewrite IH; reflexivity.
Qed.

(** The loop over the chunks of a response only writes to the console. *)
Lemma run_for_each_log (chunks : list string) (line : string -> list part) (w : W) :
  exists t w',
    run env (for_each chunks (fun chunk => log (line chunk))) w = (t, Returned tt, w') /\
    exchanges t = [] /\ (wire t = [] /\ (reads t = [] /\ errors t = [])).
Proof.
  revert w; induction chunks as [|c chunks IH]; intros w.
  - exists [], w. repeat split.
  - cbn [for_each log trigger bind run].
    destruct (env w (ConsoleLog (line c))) as [x w1].
    destruct (IH w1) as (t & w' & E & Hx & Hw & Hr & He). rewrite E.
    exists (Obs (ConsoleLog (line c)) x :: t), w'. repeat split; assumption.
Qed.

End Runs.

(** A run, as its observations and its ending. *)
Lemma run_eta {W A : Type} (env : world W) (p : prog A) (w : W) :
  run env p w = (observed env p w, ending env p w, snd (run env p w)).
Proof. unfold observed, ending. destruct (run env p w) as [[t o] w']. reflexivity. Qed.

(** ** Properties of every event of a program *)

Section Safety.
Variable P : event -> Prop.

Lemma always_bind {A B : Type} (p : prog A) (f : A -> prog B) :
  always P p -> (forall a, always P (f a)) -> always P (bind p f).
Proof.
  intros Hp Hf. induction p as [a|e|c| |e k IH]; cbn [bind always] in *; auto.
  destruct Hp as [He Hk]. split; [exact He|]. intros x. apply IH, Hk.
Qed.

Lemma always_try_catch {A : Type} (p : prog A) (h : error -> prog A) :
  always P p -> (forall e, always P (h e)) -> always P (try_catch p h).
Proof.
  intros Hp Hh. induction p as [a|e|c| |e k IH]; cbn [try_catch always] in *; auto.
  destruct Hp as [He Hk]. split; [exact He|]. intros x. apply IH, Hk.
Qed.

Lemma always_lift {A : Type} (r : result A) : always P (lift r).
Proof. destruct r; exact I. Qed.

Lemma always_for_each {A : Type} (l : list A) (f : A -> prog unit) :
  (forall a, always P (f a)) -> always P (for_each l f).
Proof.
  intros Hf. induction l as [|a l IH]; cbn [for_each]; [exact I|].
  apply always_bind; [apply Hf | intros _; exact IH].
Qed.

(** What holds of every event of a program holds of every event of its
    runs. *)
Lemma always_observed {W A : Type} (env : world W) (p : prog A) (w : W) :
  always P p -> Forall P (map ev (observed env p w)).
Proof.
  unfold observed. revert w. induction p as [a|e|c| |e k IH]; intros w Hp; cbn [run];
    try (constructor).
  destruct Hp as [He Hk]. destruct (env w e) as [x w1].
  specialize (IH x w1 (Hk x)). destruct (run env (k x) w1) as [[t o] w2].
  cbn [fst map ev] in *. constructor; assumption.
Qed.

End Safety.

Lemma exchanges_in_trace (t : list obs) (o : options) (b : option payload) (x : exchange) :
  In (o, b, x) (exchanges t) -> In (HttpRequest o b) (map ev t).
Proof.
  induction t as [|[e a] t IH]; cbn [exchanges map ev]; [intros []|].
  destruct e; cbn [exchange_of]; try (intros H; right; apply IH, H).
  intros [H|H]; [left; injection H as <- <- _; reflexivity | right; apply IH, H].
Qed.

(** [safe] follows the structure of a program to show that all its
    events have a property, leaving the events themselves. *)
Ltac safe :=
  repeat first
    [ apply always_bind
    | apply always_try_catch
    | apply always_lift
    | apply always_for_each
    | exact I
    | progress intros
    | progress cbn [always trigger log log_error sleep await]
    | match goal with
      | |- always _ (match ?x with _ => _ end) => destruct x
      | |- always _ (if ?b then _ else _) => destruct b
      | |- _ /\ _ => split
      end ].

(** ** The default order of [sort()] and the listing it produces *)

Section Sorting.

Lemma ascii_compare_refl (c : ascii) : Ascii.compare c c = Eq.
Proof. unfold Ascii.compare. apply N.compare_refl. Qed.

Lemma compare_not_gt_trans (a b c : string) :
  String.compare a b <> Gt -> String.compare b c <> Gt -> String.compare a c <> Gt.
Proof.
  revert b c; induction a as [|x a IH]; intros [|y b] [|z c]; cbn [String.compare];
    try congruence.
  unfold Ascii.compare.
  destruct (N.compare_spec (N_of_ascii x) (N_of_ascii y)) as [Exy|Lxy|Gxy];
    destruct (N.compare_spec (N_of_ascii y) (N_of_ascii z)) as [Eyz|Lyz|Gyz];
    destruct (N.compare_spec (N_of_ascii x) (N_of_ascii z)) as [Exz|Lxz|Gxz];
    intros Hab Hbc; try congruence; try lia.
  eapply IH; eassumption.
Qed.

Lemma le_trans (a b c : string) : le a b -> le b c -> le a c.
Proof.
  unfold le, JsString.leb, String.leb. intros Hab Hbc.
  destruct (String.compare a b) eqn:Eab; try discriminate;
    destruct (String.compare b c) eqn:Ebc; try discriminate;
    destruct (String.compare a c) eqn:Eac; try reflexivity;
    exfalso; apply (compare_not_gt_trans a b c); congruence.
Qed.

Lemma le_refl (a : string) : le a a.
Proof.
  unfold le, JsString.leb, String.leb.
  assert (E : String.compare a a = Eq).
  { induction a as [|c a IH]; cbn [String.compare];
      [reflexivity | rewrite ascii_compare_refl; exact IH]. }
  rewrite E; reflexivity.
Qed.

Lemma le_total (a b : string) : le a b \/ le b a.
Proof. apply String.leb_total. Qed.

Lemma le_antisym (a b : string) : le a b -> le b a -> a = b.
Proof. apply String.leb_antisym. Qed.

Lemma insert_perm (x : string) (l : list string) :
  Permutation (JsString.insert x l) (x :: l).
Proof.
  induction l as [|y l IH]; cbn [JsString.insert].
  - apply Permutation_refl.
  - destruct (JsString.leb x y).
    + apply Permutation_refl.
    + eapply perm_trans; [apply perm_skip, IH | apply perm_swap].
Qed.

Lemma sort_perm (l : list string) : Permutation (JsString.sort l) l.
Proof.
  induction l as [|x l IH]; cbn [JsString.sort].
  - apply perm_nil.
  - eapply perm_trans; [apply insert_perm | apply perm_skip, IH].
Qed.

Lemma insert_sorted (x : string) (l : list string) :
  StronglySorted le l -> StronglySorted le (JsString.insert x l).
Proof.
  induction 1 as [|y l Hl IH Hy]; cbn [JsString.insert].
  - repeat constructor.
  - destruct (JsString.leb x y) eqn:Exy.
    + constructor; [constructor; assumption|].
      constructor; [exact Exy|].
      rewrite Forall_forall in Hy |- *. intros z Hz.
      apply (le_trans x y z); [exact Exy | apply Hy, Hz].
    + constructor; [exact IH|].
      rewrite Forall_forall in Hy |- *. intros z Hz.
      apply (Permutation_in _ (insert_perm x l)) in Hz.
      destruct Hz as [<-|Hz]; [|apply Hy, Hz].
      destruct (le_total x y) as [H|H]; [unfold le in H; congruence | exact H].
Qed.

Lemma sort_sorted (l : list string) : StronglySorted le (JsString.sort l).
Proof.
  induction l as [|x l IH]; cbn [JsString.sort].
  - constructor.
  - apply insert_sorted, IH.
Qed.

(** The first element of a sorted list read backwards is above all. *)
Lemma sorted_rev_head (l : list string) (m : string) (rest : list string) :
  StronglySorted le l -> rev l = m :: rest ->
  In m l /\ forall f, In f l -> le f m.
Proof.
  intros Hs Hr.
  assert (El : l = rev rest ++ [m]).
  { rewrite <- (rev_involutive l), Hr. reflexivity. }
  subst l. split; [apply in_or_app; right; left; reflexivity|].
  clear Hr. induction (rev rest) as [|y l IH]; cbn [app] in *; intros f Hf.
  - destruct Hf as [<-|[]]. apply le_refl.
  - apply StronglySorted_inv in Hs. destruct Hs as [Hs Hy].
    destruct Hf as [<-|Hf]; [|apply IH; assumption].
    rewrite Forall_forall in Hy. apply Hy, in_or_app. right; left; reflexivity.
Qed.

Lemma latest_greatest (l : list string) (m : string) (rest : list string) :
  JsString.reverse (JsString.sort l) = m :: rest -> greatest l m.
Proof.
  intros Hr. destruct (sorted_rev_head _ _ _ (sort_sorted l) Hr) as [Hin Hmax].
  split.
  - apply (Permutation_in _ (sort_perm l)), Hin.
  - intros f Hf. apply Hmax.
    apply (Permutation_in _ (Permutation_sym (sort_perm l))), Hf.
Qed.

Lemma latest_exists (l : list string) :
  l <> [] -> exists m rest, JsString.reverse (JsString.sort l) = m :: rest.
Proof.
  intros Hl. destruct (JsString.reverse (JsString.sort l)) as [|m rest] eqn:Hr.
  - exfalso. apply Hl. unfold JsString.reverse in Hr.
    apply (f_equal (@List.length string)) in Hr. rewrite length_rev in Hr.
    rewrite (Permutation_length (sort_perm l)) in Hr.
    destruct l; [reflexivity | discriminate].
  - exists m, rest; reflexivity.
Qed.

Lemma latest_nil (l : list string) :
  l = [] -> JsString.reverse (JsString.sort l) = [].
Proof. intros ->; reflexivity. Qed.

End Sorting.

(** ** The string methods of the filter *)

Section Affixes.
Local Open Scope string_scope.

Lemma startsWith_spec (s p : string) :
  JsString.startsWith s p = true <-> exists rest, s = p ++ rest.
Proof.
  unfold JsString.startsWith. revert s; induction p as [|c p IH]; intros s.
  - split; [intros _; exists s; reflexivity | intros _; destruct s; reflexivity].
  - destruct s as [|d s]; cbn [String.prefix String.append].
    + split; [discriminate | intros (rest & H); discriminate H].
    + destruct (ascii_dec c d) as [->|Hcd].
      * rewrite IH. split; intros (rest & H); exists rest; congruence.
      * split; [discriminate | intros (rest & H); congruence].
Qed.

Lemma length_append (a b : string) :
  String.length (a ++ b) = (String.length a + String.length b)%nat.
Proof. induction a as [|c a IH]; simpl; [reflexivity | rewrite IH; reflexivity]. Qed.

Lemma substring_whole (s : string) : String.substring 0 (String.length s) s = s.
Proof. induction s as [|c s IH]; simpl; [reflexivity | rewrite IH; reflexivity]. Qed.

Lemma substring_skip (a b : string) (m : nat) :
  String.substring (String.length a) m (a ++ b) = String.substring 0 m b.
Proof. induction a as [|c a IH]; simpl; [reflexivity | exact IH]. Qed.

Lemma substring_split (s : string) (k : nat) :
  (k <= String.length s)%nat ->
  s = String.substring 0 k s ++ String.substring k (String.length s - k) s.
Proof.
  revert k; induction s as [|c s IH]; intros [|k] Hk;
    cbn [String.substring String.length String.append Nat.sub] in *.
  - reflexivity.
  - lia.
  - rewrite substring_whole. reflexivity.
  - rewrite <- IH by lia. reflexivity.
Qed.

Lemma endsWith_spec (s p : string) :
  JsString.endsWith s p = true <-> exists before, s = before ++ p.
Proof.
  unfold JsString.endsWith. cbv zeta. rewrite andb_true_iff, Nat.leb_le, String.eqb_eq.
  split.
  - intros [Hle Hsub].
    exists (String.substring 0 (String.length s - String.length p) s).
    pose proof (substring_split s (String.length s - String.length p) ltac:(lia)) as Hs.
    replace (String.length s - (String.length s - String.length p))%nat
      with (String.length p) in Hs by lia.
    rewrite Hsub in Hs. exact Hs.
  - intros (before & ->). rewrite length_append. split; [lia|].
    replace (String.length before + String.length p - String.length p)%nat
      with (String.length before) by lia.
    rewrite substring_skip. apply substring_whole.
Qed.

(** The names the locator keeps in a family: the prefix, anything, and
    [.signed.bin]. *)
Lemma firmware_name_spec (p f : string) :
  p = "main_" \/ p = "rear_" ->
  firmware_name p f = true <-> exists middle, f = p ++ middle ++ ".signed.bin".
Proof.
  intros Hp. unfold firmware_name. rewrite andb_true_iff, startsWith_spec, endsWith_spec.
  split.
  - intros [(rest & ->) (before & H)].
    destruct Hp as [->| ->];
      destruct before as [|c1 [|c2 [|c3 [|c4 [|c5 before]]]]];
      cbn [String.append] in H; try discriminate H;
      injection H as <- <- <- <- <- ->; exists before; reflexivity.
  - intros (middle & ->). split.
    + exists (middle ++ ".signed.bin"). reflexivity.
    + exists (p ++ middle).
      clear Hp. induction p as [|c p IH]; cbn [String.append]; [reflexivity|].
      rewrite IH. reflexivity.
Qed.

(** The two filtered sets, in the words of the naming convention. *)
Lemma main_set_spec (files : list string) (f : string) :
  In f (main_set files) <->
  In f files /\ exists middle, f = "main_" ++ middle ++ ".signed.bin".
Proof.
  unfold main_set. rewrite filter_In, (firmware_name_spec "main_" f) by (left; reflexivity).
  reflexivity.
Qed.

Lemma rear_set_spec (files : list string) (f : string) :
  In f (rear_set files) <->
  In f files /\ exists middle, f = "rear_" ++ middle ++ ".signed.bin".
Proof.
  unfold rear_set. rewrite filter_In, (firmware_name_spec "rear_" f) by (right; reflexivity).
  reflexivity.
Qed.

End Affixes.

(** ** Exploring the runs of a program

    [explore env] follows the program under [run env] event by event,
    splitting on every answer of the world and on every test the program
    makes, until each branch shows its whole list of observations. *)

Ltac head_of p :=
  lazymatch p with
  | bind ?q _ => head_of q
  | try_catch ?q _ => head_of q
  | lift ?r => r
  | (if ?b then _ else _) => b
  | (match ?x with Ok _ => _ | Thrown _ => _ end) => x
  | (match ?x with
     | Responded _ _ _ => _ | Errored _ => _ | Silent => _ | Aborted _ _ _ => _
     end) => x
  | (match ?x with Some _ => _ | None => _ end) => x
  | (match ?x with nil => _ | cons _ _ => _ end) => x
  | for_each ?l ?f => constr:(for_each l f)
  end.

Ltac simp1 :=
  cbn -[String.append JsString.of_Z Z.of_nat Z.eqb collect List.length
        mainFiles rearFiles request interpolate exchanges wire path_join basename
        host_ok invalid_host
        JsString.includes JsString.toLowerCase truthy get get_opt stringifies].

Ltac simp := simp1; unfold request, interpolate; simp1.

Ltac step env :=
  simp;
  lazymatch goal with
  | |- context [env ?w ?e] =>
      let x := fresh "x" in
      let w' := fresh "w" in
      destruct (env w e) as [x w']; simp1; try (destruct x)
  | |- context [run env ?p ?w] =>
      let h := head_of p in
      lazymatch h with
      | for_each ?l (fun c => log (@?line c)) =>
          let t := fresh "t" in
          let w' := fresh "w" in
          let E := fresh "E" in
          let Hx := fresh "Hx" in
          let Hw := fresh "Hw" in
          let Hr := fresh "Hr" in
          let He := fresh "He" in
          repeat first [rewrite run_try_catch | rewrite run_bind];
          destruct (run_for_each_log env l line w) as (t & w' & E & Hx & Hw & Hr & He);
          rewrite E
      | path_ok ?p => first [ change h with true | change h with false | destruct h eqn:? ]
      | host_ok ?s =>
          first [ match goal with H : host_ok s = _ |- _ => rewrite H end
                | change h with true | change h with false | destruct h eqn:? ]
      | _ => destruct h eqn:?
      end
  end.

Ltac explore env := unfold ending, observed; repeat step env; simp.

(** [views] computes [exchanges] and [wire] over explored observations. *)
Ltac views :=
  repeat first
    [ progress cbn [exchanges exchange_of reads read_of errors wire on_wire ev app fst snd]
    | rewrite exchanges_app
    | rewrite wire_app
    | rewrite reads_app
    | rewrite errors_app
    | match goal with
      | H : exchanges _ = [] |- _ => rewrite H
      | H : wire _ = [] |- _ => rewrite H
      | H : reads _ = [] |- _ => rewrite H
      | H : errors _ = [] |- _ => rewrite H
      end ].

(** [members H] splits a membership in an explicit list into its cases. *)
Ltac members H :=
  repeat (destruct H as [H|H];
          [ first [ discriminate H | inversion H; clear H; subst ] | ]);
  try (destruct H).

(** ** The firmware locator *)

Section Locator.
Context {W : Type} (env : world W).

Lemma main_set_filter (files : list string) :
  mainFiles files = JsString.reverse (JsString.sort (main_set files)).
Proof. reflexivity. Qed.

Lemma rear_set_filter (files : list string) :
  rearFiles files = JsString.reverse (JsString.sort (rear_set files)).
Proof. reflexivity. Qed.

(** C4. Whenever some name of the listing has the prefix [main_] and the
    suffix [.signed.bin], the first element of the locator's [mainFiles]
    is the greatest such name in the lexicographic order of the text, and
    likewise for [rear_] and [rearFiles]; a bundle the locator returns
    holds these two names, joined to the directory; and it does return it
    when both families have a name and both files are accessible. *)
Theorem locator_selects_greatest (dir : string) (w : W) (files : list string) :
  fst (env w (FsReaddir dir)) = Ok files ->
  (main_set files <> [] ->
   exists m rest, mainFiles files = m :: rest /\ greatest (main_set files) m) /\
  (rear_set files <> [] ->
   exists r rest, rearFiles files = r :: rest /\ greatest (rear_set files) r) /\
  (forall b, ending env (findLatestFirmwareFiles dir) w = Returned b ->
   exists m r, greatest (main_set files) m /\ greatest (rear_set files) r /\
               b = Bundle (path_join dir m) (path_join dir r)) /\
  (main_set files <> [] -> rear_set files <> [] ->
   (forall w' f, fst (env w' (FsAccess f)) = Ok tt) ->
   exists b, ending env (findLatestFirmwareFiles dir) w = Returned b).
Proof.
  intros Hdir. split; [|split; [|split]].
  - intros Hne. destruct (latest_exists _ Hne) as (m & rest & E).
    exists m, rest. split; [exact E | exact (latest_greatest _ _ _ E)].
  - intros Hne. destruct (latest_exists _ Hne) as (r & rest & E).
    exists r, rest. split; [exact E | exact (latest_greatest _ _ _ E)].
  - intros b. revert Hdir. unfold findLatestFirmwareFiles. explore env;
      intros Hdir Hb; try discriminate.
    injection Hdir as ->. injection Hb as <-.
    match goal with
    | Hm : mainFiles files = ?m :: _, Hr : rearFiles files = ?r :: _ |- _ =>
        exists m, r; repeat split;
        [ exact (proj1 (latest_greatest _ _ _ Hm))
        | exact (proj2 (latest_greatest _ _ _ Hm))
        | exact (proj1 (latest_greatest _ _ _ Hr))
        | exact (proj2 (latest_greatest _ _ _ Hr)) ]
    end.
  - intros Hm Hr Hacc. revert Hdir.
    destruct (latest_exists _ Hm) as (m & restm & Em).
    destruct (latest_exists _ Hr) as (r & restr & Er).
    unfold findLatestFirmwareFiles, ending. cbn [try_catch await bind trigger run lift].
    destruct (env w (FsReaddir dir)) as [x w1]. cbn [fst]. intros ->.
    cbn [lift bind try_catch]. rewrite main_set_filter, Em, rear_set_filter, Er.
    cbn [try_catch await bind trigger run lift].
    pose proof (Hacc w1 (path_join dir m)) as H1.
    destruct (env w1 (FsAccess (path_join dir m))) as [x1 w2]. cbn [fst] in H1. subst x1.
    cbn [try_catch await bind trigger run lift].
    pose proof (Hacc w2 (path_join dir r)) as H2.
    destruct (env w2 (FsAccess (path_join dir r))) as [x2 w3]. cbn [fst] in H2. subst x2.
    cbn [try_catch await bind trigger run lift log].
    destruct (env w3 _) as [x3 w4]. cbn [try_catch await bind trigger run lift log].
    destruct (env w4 _) as [x4 w5]. cbn.
    eexists; reflexivity.
Qed.

End Locator.

Section LocatorErrors.
Context {W : Type} (env : world W).

(** C5, as the script has it.  With no [main_*.signed.bin] name in the
    listing the locator throws an error whose message names the main
    family; with some main name and no [rear_*.signed.bin] name it throws
    one that names the rear family.  The main family is tested first, so
    a listing that lacks both is reported as lacking main. *)
Theorem locator_empty_family_error (dir : string) (w : W) (files : list string) :
  fst (env w (FsReaddir dir)) = Ok files ->
  (main_set files = [] ->
   ending env (findLatestFirmwareFiles dir) w =
   Threw (Error "Failed to find firmware files: No main firmware files found in firmware/ directory")) /\
  (main_set files <> [] -> rear_set files = [] ->
   ending env (findLatestFirmwareFiles dir) w =
   Threw (Error "Failed to find firmware files: No rear firmware files found in firmware/ directory")) /\
  JsString.includes
    "Failed to find firmware files: No main firmware files found in firmware/ directory" "main" = true /\
  JsString.includes
    "Failed to find firmware files: No rear firmware files found in firmware/ directory" "rear" = true.
Proof.
  intros Hdir. split; [|split; [|split; reflexivity]].
  - intros Hm. revert Hdir.
    unfold findLatestFirmwareFiles, ending. cbn [try_catch await bind trigger run lift].
    destruct (env w (FsReaddir dir)) as [x w1]. cbn [fst]. intros ->.
    cbn [lift bind try_catch]. rewrite main_set_filter, (latest_nil _ Hm).
    reflexivity.
  - intros Hm Hr. revert Hdir.
    destruct (latest_exists _ Hm) as (m & restm & Em).
    unfold findLatestFirmwareFiles, ending. cbn [try_catch await bind trigger run lift].
    destruct (env w (FsReaddir dir)) as [x w1]. cbn [fst]. intros ->.
    cbn [lift bind try_catch].
    rewrite main_set_filter, Em, rear_set_filter, (latest_nil _ Hr).
    reflexivity.
Qed.

End LocatorErrors.

(** A listing with both families; the later date wins in each. *)
Lemma locator_selects_greatest_witness :
  fst (Mock.scripted Mock.healthy (FsReaddir "/opt/klvr/firmware")) =
  Ok ["main_20230101.signed.bin"; "README.md"; "rear_20230215.signed.bin";
      "main_20230215.signed.bin"; "rear_20230101.signed.bin"] /\
  greatest ["main_20230101.signed.bin"; "main_20230215.signed.bin"] "main_20230215.signed.bin" /\
  greatest ["rear_20230215.signed.bin"; "rear_20230101.signed.bin"] "rear_20230215.signed.bin" /\
  ending Mock.scripted (findLatestFirmwareFiles "/opt/klvr/firmware") Mock.healthy =
  Returned (Bundle "/opt/klvr/firmware/main_20230215.signed.bin"
                   "/opt/klvr/firmware/rear_20230215.signed.bin").
Proof.
  split; [reflexivity|].
  destruct (locator_selects_greatest Mock.scripted "/opt/klvr/firmware" Mock.healthy _ eq_refl)
    as (Hm & Hr & _ & _).
  destruct Hm as (m & rest & Em & Gm); [discriminate|].
  destruct Hr as (r & rest' & Er & Gr); [discriminate|].
  vm_compute in Em. injection Em as <- _.
  vm_compute in Er. injection Er as <- _.
  split; [exact Gm|]. split; [exact Gr|]. reflexivity.
Defined.

(** The order is that of the text: [main_9] is above [main_10]. *)
Example locator_order_is_textual :
  ending Mock.scripted (findLatestFirmwareFiles "/fw") Mock.unpadded =
  Returned (Bundle "/fw/main_9.signed.bin" "/fw/rear_2.signed.bin").
Proof. reflexivity. Qed.

(** In an empty directory no [rear_*.signed.bin] name matches, and the
    error does not mention the rear family. *)
Lemma empty_directory_error_names_main_only :
  rear_set [] = [] /\
  ending Mock.scripted (findLatestFirmwareFiles "/opt/klvr/firmware") Mock.empty_dir =
  Threw (Error "Failed to find firmware files: No main firmware files found in firmware/ directory") /\
  JsString.includes
    "Failed to find firmware files: No main firmware files found in firmware/ directory" "rear" = false.
Proof. repeat split. Qed.

(** A directory with a main image and no rear image. *)
Lemma locator_empty_family_error_witness :
  fst (Mock.scripted Mock.no_rear (FsReaddir "/opt/klvr/firmware")) = Ok ["main_20230215.signed.bin"] /\
  main_set ["main_20230215.signed.bin"] <> [] /\
  rear_set ["main_20230215.signed.bin"] = [] /\
  ending Mock.scripted (findLatestFirmwareFiles "/opt/klvr/firmware") Mock.no_rear =
  Threw (Error "Failed to find firmware files: No rear firmware files found in firmware/ directory").
Proof.
  split; [reflexivity|]. split; [discriminate|]. split; [reflexivity|].
  apply (proj1 (proj2 (locator_empty_family_error Mock.scripted "/opt/klvr/firmware"
                         Mock.no_rear ["main_20230215.signed.bin"] eq_refl)));
    [discriminate | reflexivity].
Defined.

(** ** Upload and reboot requests *)

Section Requests.
Context {W : Type} (env : world W).


Lemma path_ok_app (a b : string) :
  path_ok (a ++ b)%string = path_ok a && path_ok b.
Proof.
  induction a as [|c a IH]; cbn [String.append path_ok]; [reflexivity|].
  rewrite IH. apply andb_assoc.
Qed.

Lemma reboot_path_ok (board : string) :
  path_ok (CONFIG.ENDPOINTS.REBOOT ++ "?board=" ++ board)%string = path_ok board.
Proof. rewrite !path_ok_app. reflexivity. Qed.

(** C9, as the script has it.  For a board name that [http.request]
    accepts in a path and an address it accepts as a host name, a reboot
    issues one POST whose path ends in [?board=] followed by the name and
    whose body is the name itself.  Its [Content-Length] header is the
    constant 4: the byte length of the body for [main] and for [rear], not
    one computed from the name. *)
Theorem reboot_request_shape (ip board : string) (w : W) :
  path_ok board = true ->
  host_ok ip = true ->
  exists x,
    exchanges (observed env (rebootDevice ip board) w) =
    [(Options ip 8000 ("/api/v2/device/reboot?board=" ++ board)%string "POST"
        [("Content-Length", 4)] None,
      Some (Text board), x)] /\
    (board = "main" \/ board = "rear" -> byteLength (Text board) = 4).
Proof.
  intros Hok Hhost. unfold rebootDevice. explore env; views;
    try (rewrite reboot_path_ok in *; congruence);
    eexists; (split; [reflexivity|]); intros [->| ->]; reflexivity.
Qed.

(** X22. A board name that [http.request] refuses in a path (one with a
    space or a control character) reaches no device: the reboot throws
    the [TypeError] of [http.request] and no request is made. *)
Lemma reboot_refused_path (ip board : string) (w : W) :
  path_ok board = false ->
  exchanges (observed env (rebootDevice ip board) w) = [] /\
  ending env (rebootDevice ip board) w =
  Threw (TypeError "Request path contains unescaped characters").
Proof.
  intros Hok. unfold rebootDevice. explore env; views;
    try (rewrite reboot_path_ok in *; congruence);
    split; reflexivity.
Qed.

End Requests.

(** The main board, rebooted on a healthy charger. *)
Lemma reboot_request_shape_witness :
  path_ok "main" = true /\
  host_ok "10.0.0.7" = true /\
  exists x,
    exchanges (observed Mock.scripted (rebootDevice "10.0.0.7" "main") Mock.healthy) =
    [(Options "10.0.0.7" 8000 "/api/v2/device/reboot?board=main" "POST"
        [("Content-Length", 4)] None,
      Some (Text "main"), x)] /\
    byteLength (Text "main") = 4.
Proof.
  split; [reflexivity|]. split; [reflexivity|].
  destruct (reboot_request_shape Mock.scripted "10.0.0.7" "main" Mock.healthy
              eq_refl eq_refl)
    as (x & Hx & Hlen).
  exists x. split; [exact Hx | apply Hlen; left; reflexivity].
Defined.

(** A reboot of a board called [front]: the header announces 4 bytes, the
    body has 5. *)
Lemma reboot_front_content_length_mismatch :
  map (fun r => (header "Content-Length" (headers (fst (fst r))),
                 option_map byteLength (snd (fst r))))
      (exchanges (observed Mock.scripted (rebootDevice "10.0.0.7" "front") Mock.healthy)) =
  [(Some 4, Some 5)].
Proof. reflexivity. Qed.

(** ** The update orchestrator *)

Section Orchestrator.
Context {W : Type} (env : world W).
Variable JSON_parse : string -> result value.

Lemma status_ok (st : Z) : negb (st =? 200) = false -> st = 200.
Proof. intros H. apply negb_false_iff, Z.eqb_eq in H. exact H. Qed.

Lemma status_not_ok (st : Z) : negb (st =? 200) = true -> st <> 200.
Proof. intros H. apply negb_true_iff, Z.eqb_neq in H. exact H. Qed.


(** [each H] turns a [Forall] over an explicit list into one fact per
    element. *)
Ltac each H :=
  repeat match type of H with
         | Forall _ (_ :: _) =>
             let H1 := fresh "Hhd" in
             apply Forall_cons_iff in H; destruct H as [H1 H];
             cbn [snd] in H1
         end.

Lemma get_defined (info : value) (k : string) :
  nullish info = false -> get info k = Ok (prop info k).
Proof. destruct info; cbn; intros H; try discriminate H; reflexivity. Qed.

(** X2. A device that is sent a request by the update, and answers
    every request of the update with status 200, the first with a
    description whose firmware version can be printed, is taken through
    the ten steps, provided both firmware files can be read: the update
    returns. *)
Theorem all_200_update_succeeds (ip mainPath rearPath : string) (w : W)
    (t : list obs) (o : outcome unit) (w' : W) :
  run env (executeFirmwareUpdate JSON_parse ip mainPath rearPath) w = (t, o, w') ->
  exchanges t <> [] ->
  Forall (fun r => exists msg chunks, snd r = Responded 200 msg chunks) (exchanges t) ->
  Forall (fun r => exists bytes, snd r = Ok bytes) (reads t) ->
  (forall st msg chunks rest,
     exchanges t = (Options ip 8000 "/api/v2/device/info" "GET" [] None, None,
                    Responded st msg chunks) :: rest ->
     exists info, JSON_parse (collect chunks) = Ok info /\ nullish info = false /\
                  stringifies (prop info "firmwareVersion") = true) ->
  o = Returned tt /\
  exists mainFirmware rearFirmware, wire t = sequence ip mainFirmware rearFirmware.
Proof.
  unfold executeFirmwareUpdate, getDeviceInfo, uploadFirmware, rebootDevice.
  explore env; intros Hrun; injection Hrun as <- <- _; views;
    intros Hsent Hall Hreads Hinfo.
  all: try (exfalso; apply Hsent; reflexivity).
  all: each Hall; each Hreads.
  all: repeat match goal with
         | H : exists _ _, _ = Responded _ _ _ |- _ =>
             let m := fresh "m" in
             let c := fresh "c" in
             destruct H as (m & c & H); try discriminate H;
             injection H as -> -> ->
         | H : exists _, _ = Ok _ |- _ =>
             let m := fresh "m" in
             destruct H as (m & H); try discriminate H;
             injection H as ->
         end.
  all: try discriminate.
  all: try (split; [reflexivity | do 2 eexists; reflexivity]).
  all: destruct (Hinfo _ _ _ _ eq_refl) as (info & Hparse & Hnull & Hshow).
  all: match goal with
       | H : JSON_parse _ = _, H' : JSON_parse _ = _ |- _ =>
           rewrite H in H'; inversion H'; subst; clear H'
       end.
  all: repeat match goal with
         | H : get _ _ = _ |- _ =>
             rewrite (get_defined _ _ Hnull) in H; inversion H; subst; clear H
         | H : Ok _ = Ok _ |- _ => inversion H; subst; clear H
         end.
  all: congruence.
Qed.

(** C2. When the device answers the main firmware upload with a status
    other than 200, the update throws an error whose message is
    [Main board firmware upload failed: ] followed by the status, reports
    that message on [console.error], and the device has seen the info
    fetch and that upload and nothing else: no reboot, no rear upload, no
    timer. *)
Theorem main_upload_failure_aborts (ip mainPath rearPath : string) (w : W)
    (t : list obs) (o : outcome unit) (w' : W)
    (op : options) (body : option payload) (st : Z) (msg : string) (chunks : list string) :
  run env (executeFirmwareUpdate JSON_parse ip mainPath rearPath) w = (t, o, w') ->
  In (op, body, Responded st msg chunks) (exchanges t) ->
  path op = "/api/v2/device/firmware_charger" ->
  st <> 200 ->
  o = Threw (Error ("Main board firmware upload failed: " ++ JsString.of_Z st)%string) /\
  (exists firmware,
     wire t = [GET_info ip; POST_firmware ip "/api/v2/device/firmware_charger" firmware]) /\
  errors t = [[Lit "[FIRMWARE] Update failed:";
               Lit ("Main board firmware upload failed: " ++ JsString.of_Z st)%string]].
Proof.
  unfold executeFirmwareUpdate, getDeviceInfo, uploadFirmware, rebootDevice.
  explore env; intros Hrun; injection Hrun as <- <- _; views; intros Hin Hpath Hst.
  all: repeat match goal with
         | H : negb (_ =? 200) = false |- _ => apply status_ok in H; subst
         end.
  all: members Hin; cbn [path] in Hpath; try discriminate Hpath; try congruence.
  all: repeat split; try reflexivity; eexists; reflexivity.
Qed.

(** C3, as the script has it.  Each of the four POST steps must be
    answered with status 200: when one is answered with another status,
    the update throws an error that names the step and the status, and the
    failed request is the last thing the device sees.  The first step, the
    info fetch, is not held to a status: whatever the status of its
    answer, when the body parses to a document whose firmware version can
    be printed, the update goes on and reads the main firmware file. *)
Theorem failed_step_aborts (ip mainPath rearPath : string) (w : W)
    (t : list obs) (o : outcome unit) (w' : W) :
  run env (executeFirmwareUpdate JSON_parse ip mainPath rearPath) w = (t, o, w') ->
  (forall op body st msg chunks name,
     In (op, body, Responded st msg chunks) (exchanges t) ->
     step_name (path op) = Some name ->
     st <> 200 ->
     o = Threw (Error (name ++ " failed: " ++ JsString.of_Z st)%string) /\
     (exists before, exchanges t = before ++ [(op, body, Responded st msg chunks)]) /\
     (exists before, wire t = before ++ [HttpRequest op body])) /\
  (forall st msg chunks rest info,
     exchanges t = (Options ip 8000 "/api/v2/device/info" "GET" [] None, None,
                    Responded st msg chunks) :: rest ->
     JSON_parse (collect chunks) = Ok info ->
     nullish info = false ->
     stringifies (prop info "firmwareVersion") = true ->
     exists r after, reads t = (mainPath, r) :: after).
Proof.
  unfold executeFirmwareUpdate, getDeviceInfo, uploadFirmware, rebootDevice,
    CONFIG.DEFAULT_PORT, CONFIG.ENDPOINTS.INFO.
  explore env; intros Hrun; injection Hrun as <- <- _; views; split.
  all: try (intros ? ? ? ? ? Hsent Hparse Hnull Hshow;
            first [ discriminate Hsent
                  | do 2 eexists; reflexivity
                  | exfalso; inversion Hsent; subst; clear Hsent;
                    repeat match goal with
                           | H : JSON_parse _ = _ |- _ =>
                               assert_fails (constr_eq H Hparse); rewrite H in Hparse
                           end;
                    first [ discriminate Hparse | injection Hparse as <- ];
                    repeat match goal with
                           | H : get _ _ = _ |- _ =>
                               rewrite (get_defined _ _ Hnull) in H; inversion H; subst; clear H
                           end;
                    congruence ]).
  all: intros op body st msg chunks' name Hin Hname Hst.
  all: repeat match goal with
         | H : negb (_ =? 200) = false |- _ => apply status_ok in H; subst
         end.
  all: members Hin; cbn in Hname; try discriminate Hname; try congruence.
  all: injection Hname as <-.
  all: split; [reflexivity|]; split.
  all: first
         [ exists []; reflexivity
         | eexists [_]; reflexivity
         | eexists [_; _]; reflexivity
         | eexists [_; _; _]; reflexivity
         | eexists [_; _; _; _]; reflexivity
         | eexists [_; _; _; _; _]; reflexivity
         | eexists [_; _; _; _; _; _]; reflexivity
         | eexists [_; _; _; _; _; _; _]; reflexivity ].
Qed.

End Orchestrator.

(** ** The protocol *)

Section Protocol.
Variable JSON_parse : string -> result value.

Lemma locator_in_protocol (ip dir : string) :
  always (in_protocol ip) (findLatestFirmwareFiles dir).
Proof. unfold findLatestFirmwareFiles. safe. Qed.

Lemma probe_in_protocol (ip : string) :
  always (in_protocol ip) (testDeviceConnection JSON_parse ip).
Proof.
  unfold testDeviceConnection, request, interpolate. safe.
  left; reflexivity.
Qed.

(** Every request of an update is one of the protocol. *)
Lemma update_in_protocol (ip mainPath rearPath : string) :
  always (in_protocol ip) (executeFirmwareUpdate JSON_parse ip mainPath rearPath).
Proof.
  unfold executeFirmwareUpdate, getDeviceInfo, uploadFirmware, rebootDevice,
    request, interpolate.
  safe; cbn [in_protocol]; unfold GET_info, POST_firmware, POST_reboot;
    first [ right; left; reflexivity
          | right; right; left; eexists; reflexivity
          | right; right; right; left; eexists; reflexivity
          | right; right; right; right; left; reflexivity
          | right; right; right; right; right; reflexivity ].
Qed.

(** So is every request of the command line, for the device it addresses. *)
Lemma cli_in_protocol (dir : string) (args : list string) :
  always (in_protocol (target args)) (cli JSON_parse dir args).
Proof.
  unfold cli. fold (target args).
  apply always_try_catch; [|safe].
  apply always_bind; [apply locator_in_protocol|]. intros firmwareFiles.
  do 4 (apply always_bind; [safe|]; intros _).
  apply always_bind; [apply probe_in_protocol|]. intros [deviceInfo|]; [|safe].
  do 2 (apply always_bind; [safe|]; intros _).
  apply always_bind; [apply update_in_protocol|]. safe.
Qed.

(** A request of the protocol to the reboot endpoint is the reboot of
    [main] or of [rear], and its header is right for its body. *)
Lemma protocol_reboot (ip : string) (o : options) (b : option payload) :
  in_protocol ip (HttpRequest o b) ->
  String.prefix "/api/v2/device/reboot" (path o) = true ->
  (HttpRequest o b = POST_reboot ip "main" \/ HttpRequest o b = POST_reboot ip "rear") /\
  header "Content-Length" (headers o) = Some 4 /\
  option_map byteLength b = Some 4.
Proof.
  cbn [in_protocol].
  intros [H|[H|[(fw & H)|[(fw & H)|[H|H]]]]] Hpath; injection H as -> ->;
    try discriminate Hpath.
  - split; [left; reflexivity | split; reflexivity].
  - split; [right; reflexivity | split; reflexivity].
Qed.

Section Traces.
Context {W : Type} (env : world W).

(** C10. Every request of the update whose path starts with the reboot
    endpoint is the reboot of [main] or the reboot of [rear]: its body is
    one of these two names, and the 4 of its [Content-Length] header is the
    number of bytes of that body. *)
Theorem reboot_requests_are_main_or_rear (ip mainPath rearPath : string) (w : W)
    (o : options) (b : option payload) (x : exchange) :
  In (o, b, x)
     (exchanges (observed env (executeFirmwareUpdate JSON_parse ip mainPath rearPath) w)) ->
  String.prefix "/api/v2/device/reboot" (path o) = true ->
  (HttpRequest o b = POST_reboot ip "main" \/ HttpRequest o b = POST_reboot ip "rear") /\
  header "Content-Length" (headers o) = Some 4 /\
  option_map byteLength b = Some 4.
Proof.
  intros Hin Hpath. apply exchanges_in_trace in Hin.
  pose proof (always_observed _ env _ w (update_in_protocol ip mainPath rearPath)) as Hall.
  rewrite Forall_forall in Hall.
  exact (protocol_reboot ip o b (Hall _ Hin) Hpath).
Qed.

(** Over a whole run of the command line too, the requests to the reboot
    endpoint are the reboot of [main] and the reboot of [rear]. *)
Theorem cli_reboots_main_and_rear (dir : string) (args : list string) (w : W)
    (o : options) (b : option payload) (x : exchange) :
  In (o, b, x) (exchanges (observed env (cli JSON_parse dir args) w)) ->
  String.prefix "/api/v2/device/reboot" (path o) = true ->
  (HttpRequest o b = POST_reboot (target args) "main" \/
   HttpRequest o b = POST_reboot (target args) "rear") /\
  header "Content-Length" (headers o) = Some 4 /\
  option_map byteLength b = Some 4.
Proof.
  intros Hin Hpath. apply exchanges_in_trace in Hin.
  pose proof (always_observed _ env _ w (cli_in_protocol dir args)) as Hall.
  rewrite Forall_forall in Hall.
  exact (protocol_reboot (target args) o b (Hall _ Hin) Hpath).
Qed.

End Traces.
End Protocol.

(** *** Concrete updates *)


(** Status 500 on the main upload: the message ends in 500 and the
    device has seen two requests. *)
Lemma main_upload_failure_aborts_witness :
  500 <> 200 /\
  ending Mock.scripted
         (executeFirmwareUpdate Mock.parse "10.0.0.7" "/fw/main_2.signed.bin" "/fw/rear_2.signed.bin")
         Mock.main_upload_500 =
  Threw (Error "Main board firmware upload failed: 500") /\
  wire (observed Mock.scripted
          (executeFirmwareUpdate Mock.parse "10.0.0.7" "/fw/main_2.signed.bin" "/fw/rear_2.signed.bin")
          Mock.main_upload_500) =
  [GET_info "10.0.0.7"; POST_firmware "10.0.0.7" "/api/v2/device/firmware_charger" Mock.firmware].
Proof.
  split; [discriminate|].
  destruct (main_upload_failure_aborts Mock.scripted Mock.parse
              "10.0.0.7" "/fw/main_2.signed.bin" "/fw/rear_2.signed.bin" Mock.main_upload_500
              _ _ _
              (Options "10.0.0.7" 8000 "/api/v2/device/firmware_charger" "POST"
                       [("Content-Length", 4)] None)
              (Some (Buffer Mock.firmware)) 500 "Internal Server Error" ["flash busy"]
              eq_refl (or_intror (or_introl eq_refl)) eq_refl ltac:(discriminate))
    as (Ho & _ & _).
  split; [exact Ho | vm_compute; reflexivity].
Defined.

(** Status 503 on the reboot of the rear board stops the update; status
    500 on the info fetch, with a description, does not. *)
Lemma failed_step_aborts_witness :
  step_name "/api/v2/device/reboot?board=rear" = Some "Rear board reboot" /\
  503 <> 200 /\
  ending Mock.scripted
         (executeFirmwareUpdate Mock.parse "10.0.0.7" "/fw/main_2.signed.bin" "/fw/rear_2.signed.bin")
         Mock.rear_reboot_503 =
  Threw (Error "Rear board reboot failed: 503") /\
  exists r after,
    reads (observed Mock.scripted
             (executeFirmwareUpdate Mock.parse "10.0.0.7"
                "/fw/main_2.signed.bin" "/fw/rear_2.signed.bin")
             Mock.info_500) =
    ("/fw/main_2.signed.bin", r) :: after.
Proof.
  split; [reflexivity|]. split; [discriminate|]. split.
  - refine (proj1 (proj1 (failed_step_aborts Mock.scripted Mock.parse
                "10.0.0.7" "/fw/main_2.signed.bin" "/fw/rear_2.signed.bin" Mock.rear_reboot_503
                _ _ _ eq_refl)
              (Options "10.0.0.7" 8000 "/api/v2/device/reboot?board=rear" "POST"
                       [("Content-Length", 4)] None)
              (Some (Text "rear")) 503 "Service Unavailable" [] "Rear board reboot"
              _ eq_refl _)).
    + vm_compute. do 4 right. left. reflexivity.
    + discriminate.
  - refine (proj2 (failed_step_aborts Mock.scripted Mock.parse
                     "10.0.0.7" "/fw/main_2.signed.bin" "/fw/rear_2.signed.bin" Mock.info_500
                     _ _ _ (run_eta _ _ _))
              500 "Internal Server Error" [Mock.doc_charger] _ Mock.charger
              _ eq_refl eq_refl eq_refl).
    vm_compute. reflexivity.
Defined.

(** The info fetch is answered with status 500 and a description; the
    update does not stop there, it goes through all ten steps and
    succeeds. *)
Lemma info_status_500_not_aborted :
  hd_error (exchanges (observed Mock.scripted
              (executeFirmwareUpdate Mock.parse "10.0.0.7" "/fw/main_2.signed.bin" "/fw/rear_2.signed.bin")
              Mock.info_500)) =
  Some (Options "10.0.0.7" 8000 "/api/v2/device/info" "GET" [] None, None,
        Responded 500 "Internal Server Error" [Mock.doc_charger]) /\
  ending Mock.scripted
         (executeFirmwareUpdate Mock.parse "10.0.0.7" "/fw/main_2.signed.bin" "/fw/rear_2.signed.bin")
         Mock.info_500 = Returned tt /\
  wire (observed Mock.scripted
          (executeFirmwareUpdate Mock.parse "10.0.0.7" "/fw/main_2.signed.bin" "/fw/rear_2.signed.bin")
          Mock.info_500) = sequence "10.0.0.7" Mock.firmware Mock.firmware.
Proof. vm_compute. repeat split. Qed.

(** The reboot of the rear board on a charger that is being updated. *)
Lemma reboot_requests_are_main_or_rear_witness :
  String.prefix "/api/v2/device/reboot" "/api/v2/device/reboot?board=rear" = true /\
  In (Options "10.0.0.7" 8000 "/api/v2/device/reboot?board=rear" "POST" [("Content-Length", 4)] None,
      Some (Text "rear"), Responded 200 "OK" ["ok"])
     (exchanges (observed Mock.scripted
        (executeFirmwareUpdate Mock.parse "10.0.0.7" "/fw/main_2.signed.bin" "/fw/rear_2.signed.bin")
        Mock.updating)) /\
  option_map byteLength (Some (Text "rear")) = Some 4.
Proof.
  split; [reflexivity|].
  assert (Hin : In (Options "10.0.0.7" 8000 "/api/v2/device/reboot?board=rear" "POST"
                            [("Content-Length", 4)] None,
                    Some (Text "rear"), Responded 200 "OK" ["ok"])
                   (exchanges (observed Mock.scripted
                      (executeFirmwareUpdate Mock.parse "10.0.0.7"
                         "/fw/main_2.signed.bin" "/fw/rear_2.signed.bin")
                      Mock.updating))).
  { vm_compute. do 4 right. left. reflexivity. }
  split; [exact Hin|].
  exact (proj2 (proj2 (reboot_requests_are_main_or_rear Mock.parse Mock.scripted
                         "10.0.0.7" "/fw/main_2.signed.bin" "/fw/rear_2.signed.bin"
                         Mock.updating _ _ _ Hin eq_refl))).
Defined.

(** ** The vendor name in a device name *)

Section Vendor.










End Vendor.

(** ** The device prober *)

Section Prober.
Context {W : Type} (env : world W).
Variable JSON_parse : string -> result value.

Lemma get_ok (info : value) (k : string) (v : value) :
  get info k = Ok v -> v = prop info k.
Proof. destruct info; cbn [get prop]; intros H; inversion H; reflexivity. Qed.








(** X26. An answer to the prober that is cut short settles nothing:
    none of the listeners of the prober fires, the timeout included, and
    the prober stays pending. *)
Theorem probe_aborted_answer_pending (ip : string) (w : W)
    (o : options) (b : option payload) (st : Z) (msg : string) (chunks : list string) :
  In (o, b, Aborted st msg chunks)
     (exchanges (observed env (testDeviceConnection JSON_parse ip) w)) ->
  ending env (testDeviceConnection JSON_parse ip) w = Pending.
Proof.
  unfold testDeviceConnection. explore env; views; intros Hin; members Hin.
  reflexivity.
Qed.

End Prober.

(** *** Concrete probes *)



(** The connection is closed in the middle of the answer to the probe. *)
Lemma probe_aborted_answer_pending_witness :
  In (GET_probe "10.0.0.9", None, Aborted 200 "OK" ["{"])
     (exchanges (observed Mock.scripted (testDeviceConnection Mock.parse "10.0.0.9")
                   Mock.probe_cut)) /\
  ending Mock.scripted (testDeviceConnection Mock.parse "10.0.0.9") Mock.probe_cut = Pending.
Proof.
  assert (Hin : In (GET_probe "10.0.0.9", None, Aborted 200 "OK" ["{"])
                   (exchanges (observed Mock.scripted
                                 (testDeviceConnection Mock.parse "10.0.0.9")
                                 Mock.probe_cut)))
    by (left; reflexivity).
  split; [exact Hin|].
  exact (probe_aborted_answer_pending Mock.scripted Mock.parse "10.0.0.9" Mock.probe_cut
           _ _ _ _ _ Hin).
Defined.


(** * Further properties of the script *)

(** ** What every run of the update has in common *)

(** [prefix_of_sequence] shows an explicit list to be the first steps of
    [sequence]. *)
Ltac prefix_of_sequence :=
  first
    [ exists [], [], 0%nat; reflexivity
    | exists [], [], 1%nat; reflexivity
    | eexists; exists [], 2%nat; reflexivity
    | eexists; exists [], 3%nat; reflexivity
    | eexists; exists [], 4%nat; reflexivity
    | eexists; exists [], 5%nat; reflexivity
    | do 2 eexists; exists 6%nat; reflexivity
    | do 2 eexists; exists 7%nat; reflexivity
    | do 2 eexists; exists 8%nat; reflexivity
    | do 2 eexists; exists 9%nat; reflexivity
    | do 2 eexists; exists 10%nat; reflexivity ].

(** [last_of] shows the last element of an explicit list. *)
Ltac last_of :=
  unfold ends_with;
  first
    [ exists []; reflexivity
    | eexists [_]; reflexivity
    | eexists [_; _]; reflexivity
    | eexists [_; _; _]; reflexivity
    | eexists [_; _; _; _]; reflexivity
    | eexists [_; _; _; _; _]; reflexivity
    | eexists [_; _; _; _; _; _]; reflexivity ].

Section UpdateRuns.
Context {W : Type} (env : world W).
Variable JSON_parse : string -> result value.

(** Every path through [executeFirmwareUpdate], in every world. *)
Lemma update_facts (ip mainPath rearPath : string) (w : W)
    (t : list obs) (o : outcome unit) (w' : W) :
  run env (executeFirmwareUpdate JSON_parse ip mainPath rearPath) w = (t, o, w') ->
  update_shape ip mainPath rearPath (wire t) (exchanges t) (reads t) (errors t) o.
Proof.
  unfold executeFirmwareUpdate, getDeviceInfo, uploadFirmware, rebootDevice.
  explore env; intros Hrun; injection Hrun as <- <- _; views.
  all: unfold update_shape.
  all: split; [prefix_of_sequence|].
  all: split; [intros ? ? Hin; members Hin; (split; reflexivity)|].
  all: split; [intros Hin; try (members Hin; fail);
               first [ left; reflexivity
                     | right; split;
                       [ reflexivity
                       | do 3 eexists; split;
                         [ last_of
                         | first [left; reflexivity | right; do 3 eexists; reflexivity] ] ] ]|].
  all: split; [intros ? ? ? Hin Hno; members Hin;
               first [ split; [reflexivity | last_of]
                     | exfalso; apply Hno; cbn; tauto ]|].
  all: split; [intros ? ? ? Hin; members Hin; intros [Hun|(? & ? & ? & Hun)];
               try discriminate Hun; (split; [reflexivity | last_of])|].
  all: split; [intros ? Hthrew; try discriminate Hthrew; injection Hthrew as <-; last_of|].
  all: split; [intros c; discriminate|].
  all: split; [intros Ho; try discriminate Ho; do 2 eexists; split; reflexivity|].
  all: intros ? ? ? ? ? ? Hin Hname Hst.
  all: repeat match goal with
         | H : negb (_ =? 200) = false |- _ => apply status_ok in H; subst
         end.
  all: members Hin; cbn in Hname; try discriminate Hname; try congruence.
  all: injection Hname as <-; reflexivity.
Qed.

(** X1. Whatever the device, the files and [JSON.parse] do, the requests
    and timers of a run of the update are the first [n] steps of the
    ten-step sequence, for some [n]: no step is skipped, repeated or
    taken out of order, also when the update fails or hangs. *)
Theorem update_wire_is_prefix (ip mainPath rearPath : string) (w : W) :
  exists mainFirmware rearFirmware n,
    wire (observed env (executeFirmwareUpdate JSON_parse ip mainPath rearPath) w) =
    firstn n (sequence ip mainFirmware rearFirmware).
Proof.
  unfold observed.
  destruct (run env (executeFirmwareUpdate JSON_parse ip mainPath rearPath) w)
    as [[t o] w'] eqn:E.
  exact (proj1 (update_facts _ _ _ _ _ _ _ E)).
Qed.

(** X3. When a firmware file cannot be read, the update throws the error
    of [fs.readFile] itself, and the device has seen nothing but the
    first info fetch: both files are read before anything is uploaded. *)
Theorem unreadable_firmware_stops_before_upload (ip mainPath rearPath : string) (w : W)
    (t : list obs) (o : outcome unit) (w' : W) (file : string) (e : error) :
  run env (executeFirmwareUpdate JSON_parse ip mainPath rearPath) w = (t, o, w') ->
  In (file, Thrown e) (reads t) ->
  o = Threw e /\ wire t = [GET_info ip].
Proof.
  intros E. exact (proj1 (proj2 (update_facts _ _ _ _ _ _ _ E)) file e).
Qed.

(** X4. Before the last wait, a request that ends in an error of the
    request itself (connection refused, reset, ...) is the last request
    of the update, which throws that very error. *)
Theorem request_error_aborts_update (ip mainPath rearPath : string) (w : W)
    (t : list obs) (o : outcome unit) (w' : W)
    (op : options) (b : option payload) (e : error) :
  run env (executeFirmwareUpdate JSON_parse ip mainPath rearPath) w = (t, o, w') ->
  In (op, b, Errored e) (exchanges t) ->
  ~ In (SetTimeout 20000) (wire t) ->
  o = Threw e /\ exists before, exchanges t = before ++ [(op, b, Errored e)].
Proof.
  intros E.
  exact (proj1 (proj2 (proj2 (proj2 (update_facts _ _ _ _ _ _ _ E)))) op b e).
Qed.

(** X5. The requests of the update carry no timeout: a request that gets
    neither an answer nor an error is the last one, and the update never
    settles. *)
Theorem silent_device_hangs_update (ip mainPath rearPath : string) (w : W)
    (t : list obs) (o : outcome unit) (w' : W) (op : options) (b : option payload) :
  run env (executeFirmwareUpdate JSON_parse ip mainPath rearPath) w = (t, o, w') ->
  In (op, b, Silent) (exchanges t) ->
  o = Pending /\ exists before, exchanges t = before ++ [(op, b, Silent)].
Proof.
  intros E Hin.
  exact (proj1 (proj2 (proj2 (proj2 (proj2 (update_facts _ _ _ _ _ _ _ E))))) op b Silent
           Hin (or_introl eq_refl)).
Qed.

(** X6. Once the 20000 ms wait for the rear board has started, the
    update cannot fail any more: whatever the last info fetch does
    (error, unparsable body), the update returns; only a device that
    never answers that fetch, or cuts its answer short, keeps it
    pending. *)
Theorem final_fetch_failure_is_swallowed (ip mainPath rearPath : string) (w : W)
    (t : list obs) (o : outcome unit) (w' : W) :
  run env (executeFirmwareUpdate JSON_parse ip mainPath rearPath) w = (t, o, w') ->
  In (SetTimeout 20000) (wire t) ->
  o = Returned tt \/
  (o = Pending /\ exists op b before, exchanges t = before ++ [(op, b, Silent)]) \/
  (o = Pending /\ exists op b st msg chunks before,
                    exchanges t = before ++ [(op, b, Aborted st msg chunks)]).
Proof.
  intros E Hin.
  destruct (proj1 (proj2 (proj2 (update_facts _ _ _ _ _ _ _ E))) Hin)
    as [H|(H & op & b & x & (before & Hl) & [->|(st & msg & chunks & ->)])].
  - left; exact H.
  - right; left. split; [exact H | exists op, b, before; exact Hl].
  - right; right. split; [exact H | exists op, b, st, msg, chunks, before; exact Hl].
Qed.

(** X7. Whenever the update throws, the last thing it wrote with
    [console.error] is [[FIRMWARE] Update failed:] followed by the
    message of the error it throws. *)
Theorem update_failure_is_logged (ip mainPath rearPath : string) (w : W)
    (t : list obs) (w' : W) (e : error) :
  run env (executeFirmwareUpdate JSON_parse ip mainPath rearPath) w = (t, Threw e, w') ->
  exists before,
    errors t = before ++ [[Lit "[FIRMWARE] Update failed:"; Lit (message e)]].
Proof.
  intros E.
  exact (proj1 (proj2 (proj2 (proj2 (proj2 (proj2
           (update_facts _ _ _ _ _ _ _ E)))))) e eq_refl).
Qed.

(** X24. An answer of the device that is cut short -- the connection
    is closed after the status line and before the end of the body --
    settles nothing: the request it answers is the last of the update,
    which stays pending. *)
Theorem aborted_answer_hangs_update (ip mainPath rearPath : string) (w : W)
    (t : list obs) (o : outcome unit) (w' : W) (op : options) (b : option payload)
    (st : Z) (msg : string) (chunks : list string) :
  run env (executeFirmwareUpdate JSON_parse ip mainPath rearPath) w = (t, o, w') ->
  In (op, b, Aborted st msg chunks) (exchanges t) ->
  o = Pending /\ exists before, exchanges t = before ++ [(op, b, Aborted st msg chunks)].
Proof.
  intros E Hin.
  refine (proj1 (proj2 (proj2 (proj2 (proj2 (update_facts _ _ _ _ _ _ _ E))))) op b _
            Hin (or_intror _)).
  do 3 eexists; reflexivity.
Qed.

End UpdateRuns.

(** ** Runs of the locator *)

Section LocatorRuns.
Context {W : Type} (env : world W).

(** The head of each candidate list is the latest file of its family. *)
Lemma mainFiles_latest (files : list string) (m : string) (rest : list string) :
  mainFiles files = m :: rest -> latest "main_" files m.
Proof.
  intros H. rewrite main_set_filter in H.
  destruct (latest_greatest _ _ _ H) as [Hin Hmax].
  apply main_set_spec in Hin. destruct Hin as [Hin Hname].
  split; [exact Hin|]. split; [exact Hname|].
  intros f middle Hf Hfn. apply Hmax, main_set_spec.
  split; [exact Hf | exists middle; exact Hfn].
Qed.

Lemma rearFiles_latest (files : list string) (r : string) (rest : list string) :
  rearFiles files = r :: rest -> latest "rear_" files r.
Proof.
  intros H. rewrite rear_set_filter in H.
  destruct (latest_greatest _ _ _ H) as [Hin Hmax].
  apply rear_set_spec in Hin. destruct Hin as [Hin Hname].
  split; [exact Hin|]. split; [exact Hname|].
  intros f middle Hf Hfn. apply Hmax, rear_set_spec.
  split; [exact Hf | exists middle; exact Hfn].
Qed.

(** Every path through [findLatestFirmwareFiles], in every world. *)
Lemma locator_facts (dir : string) (w : W) (t : list obs) (o : outcome bundle) (w' : W) :
  run env (findLatestFirmwareFiles dir) w = (t, o, w') ->
  locator_shape dir (listings t) (accesses t) (exchanges t) (wire t) (reads t) (errors t) o.
Proof.
  unfold findLatestFirmwareFiles.
  explore env; intros Hrun; injection Hrun as <- <- _; views;
    cbn [accesses access_of listings listing_of]; unfold locator_shape.
  all: do 4 (split; [reflexivity|]).
  all: repeat match goal with u : unit |- _ => destruct u end.
  all: split;
    [ first [ left; do 3 eexists; split; [reflexivity|]; split; [reflexivity|];
              split; [eapply mainFiles_latest; eassumption|];
              split; [eapply rearFiles_latest; eassumption | reflexivity]
            | right; eexists; reflexivity ]
    | intros ? ? Hin; members Hin; (split; [reflexivity | last_of]) ].
Qed.

(** X9. The locator sends nothing to any device, and it either returns a
    bundle or throws an [Error] whose message starts with
    [Failed to find firmware files: ]: every failure inside it, of the
    file system or its own, is wrapped in that message. *)
Theorem locator_failures_are_wrapped (dir : string) (w : W) :
  exchanges (observed env (findLatestFirmwareFiles dir) w) = [] /\
  ((exists b, ending env (findLatestFirmwareFiles dir) w = Returned b) \/
   (exists m, ending env (findLatestFirmwareFiles dir) w =
              Threw (Error ("Failed to find firmware files: " ++ m)%string))).
Proof.
  unfold observed, ending.
  destruct (run env (findLatestFirmwareFiles dir) w) as [[t o] w'] eqn:E.
  destruct (locator_facts _ _ _ _ _ E)
    as (Hx & _ & _ & _ & [(files & m & r & Ho & _)|(m & Ho)] & _);
    cbn [fst snd]; (split; [exact Hx|]).
  - left. eexists. exact Ho.
  - right. exists m. exact Ho.
Qed.

(** X10. When the firmware directory cannot be listed, the locator
    throws [Failed to find firmware files: ] followed by the message of
    the error of [fs.readdir], and it has done nothing else. *)
Theorem unreadable_directory_error (dir : string) (w : W) (e : error) :
  fst (env w (FsReaddir dir)) = Thrown e ->
  ending env (findLatestFirmwareFiles dir) w =
  Threw (Error ("Failed to find firmware files: " ++ message e)%string) /\
  map ev (observed env (findLatestFirmwareFiles dir) w) = [FsReaddir dir].
Proof.
  unfold findLatestFirmwareFiles. explore env; intros H; try discriminate H.
  injection H as ->. split; reflexivity.
Qed.

(** X11. When [fs.access] refuses one of the two chosen files, that is
    the last file the locator checks, and it throws
    [Failed to find firmware files: ] followed by the message of that
    error. *)
Theorem inaccessible_file_error (dir : string) (w : W) (t : list obs)
    (o : outcome bundle) (w' : W) (file : string) (e : error) :
  run env (findLatestFirmwareFiles dir) w = (t, o, w') ->
  In (file, Thrown e) (accesses t) ->
  o = Threw (Error ("Failed to find firmware files: " ++ message e)%string) /\
  exists before, accesses t = before ++ [(file, Thrown e)].
Proof.
  intros E.
  exact (proj2 (proj2 (proj2 (proj2 (proj2 (locator_facts _ _ _ _ _ E))))) file e).
Qed.

(** X12. A bundle the locator returns has been checked: [fs.access]
    was called on exactly its two files, the main one first, and accepted
    both. *)
Theorem bundle_files_were_checked (dir : string) (w : W) (t : list obs)
    (b : bundle) (w' : W) :
  run env (findLatestFirmwareFiles dir) w = (t, Returned b, w') ->
  accesses t = [(main b, Ok tt); (rear b, Ok tt)].
Proof.
  intros E.
  destruct (locator_facts _ _ _ _ _ E)
    as (_ & _ & _ & _ & [(files & m & r & Ho & _ & _ & _ & Ha)|(m & Ho)] & _);
    [|discriminate Ho].
  injection Ho as ->. exact Ha.
Qed.

End LocatorRuns.

(** ** The candidates of the locator *)

Section Candidates.

Lemma sorted_snoc {A : Type} (R : A -> A -> Prop) (l : list A) (x : A) :
  StronglySorted R l -> Forall (fun y => R y x) l -> StronglySorted R (l ++ [x]).
Proof.
  induction 1 as [|y l Hl IH Hy]; intros Hx; cbn [app].
  - repeat constructor.
  - apply Forall_cons_iff in Hx. destruct Hx as [Hyx Hx].
    constructor; [apply IH, Hx|].
    apply Forall_app. split; [exact Hy | repeat constructor; exact Hyx].
Qed.

Lemma sorted_rev (l : list string) :
  StronglySorted le l -> StronglySorted (fun a b => le b a) (rev l).
Proof.
  induction 1 as [|x l Hl IH Hx]; cbn [rev]; [constructor|].
  apply sorted_snoc; [exact IH | apply Forall_rev, Hx].
Qed.

(** X8. The two candidate lists of the locator hold exactly the names of
    the listing that start with [main_] (or [rear_]) and end with
    [.signed.bin], nothing added and nothing lost, and each list is in
    descending order of code units. *)
Theorem latest_files_are_the_matching_names (files : list string) :
  (forall f, In f (mainFiles files) <->
             In f files /\ exists middle, f = ("main_" ++ middle ++ ".signed.bin")%string) /\
  (forall f, In f (rearFiles files) <->
             In f files /\ exists middle, f = ("rear_" ++ middle ++ ".signed.bin")%string) /\
  StronglySorted (fun a b => String.leb b a = true) (mainFiles files) /\
  StronglySorted (fun a b => String.leb b a = true) (rearFiles files).
Proof.
  split; [|split; [|split]].
  - intros f. rewrite <- main_set_spec, main_set_filter. unfold JsString.reverse.
    rewrite <- in_rev. split; apply Permutation_in;
      [apply sort_perm | apply Permutation_sym, sort_perm].
  - intros f. rewrite <- rear_set_spec, rear_set_filter. unfold JsString.reverse.
    rewrite <- in_rev. split; apply Permutation_in;
      [apply sort_perm | apply Permutation_sym, sort_perm].
  - rewrite main_set_filter. apply sorted_rev, sort_sorted.
  - rewrite rear_set_filter. apply sorted_rev, sort_sorted.
Qed.

End Candidates.

(** ** The info fetch and the reboot *)

Section InfoAndReboot.
Context {W : Type} (env : world W).
Variable JSON_parse : string -> result value.

(** X13. Every request of the info fetch is the one GET of the info
    endpoint, without a timeout.  The fetch never looks at the status of
    the answer: it returns the parsed body when that is an object whose
    [firmwareVersion] can be printed, and throws
    [Failed to parse device info response] when the body does not parse,
    parses to [null], or holds a version that cannot be printed.  An error
    of the request is thrown as it is; without an answer, or with an
    answer cut short, the fetch never settles. *)
Theorem get_info_outcome (ip : string) (w : W)
    (o : options) (b : option payload) (x : exchange) :
  In (o, b, x) (exchanges (observed env (getDeviceInfo JSON_parse ip) w)) ->
  exchanges (observed env (getDeviceInfo JSON_parse ip) w) =
  [(Options ip 8000 "/api/v2/device/info" "GET" [] None, None, x)] /\
  match x with
  | Responded _ _ chunks =>
      (forall info, JSON_parse (collect chunks) = Ok info ->
                    nullish info = false ->
                    stringifies (prop info "firmwareVersion") = true ->
                    ending env (getDeviceInfo JSON_parse ip) w = Returned info) /\
      ((forall info, JSON_parse (collect chunks) = Ok info ->
                     nullish info = true \/
                     stringifies (prop info "firmwareVersion") = false) ->
       ending env (getDeviceInfo JSON_parse ip) w =
       Threw (Error "Failed to parse device info response"))
  | Errored e => ending env (getDeviceInfo JSON_parse ip) w = Threw e
  | Silent => ending env (getDeviceInfo JSON_parse ip) w = Pending
  | Aborted _ _ _ => ending env (getDeviceInfo JSON_parse ip) w = Pending
  end.
Proof.
  unfold getDeviceInfo. explore env; views; intros Hin; members Hin;
    (split; [reflexivity|]); cbn beta iota; try reflexivity.
  all: repeat match goal with
         | H : get ?i _ = Ok ?v |- _ =>
             assert (nullish i = false) by (destruct i; try discriminate H; reflexivity);
             apply get_ok in H; subst v
         | H : get ?i _ = Thrown _ |- _ =>
             assert (nullish i = true) by (destruct i; try discriminate H; reflexivity);
             clear H
         | H : Ok _ = Ok _ |- _ => injection H as <-
         end.
  all: split; [intros info Hp Hn Hs | intros Hbad].
  all: try reflexivity.
  all: try match goal with
           | H : JSON_parse _ = _ |- _ => assert_fails (constr_eq H Hp); rewrite H in Hp
           end.
  all: try discriminate Hp.
  all: try (injection Hp as <-).
  all: try congruence.
  all: exfalso;
    first [ destruct (Hbad _ eq_refl) as [Hn|Hs]
          | match goal with
            | H : JSON_parse _ = Ok _ |- _ => destruct (Hbad _ H) as [Hn|Hs]
            end ];
    congruence.
Qed.

(** X14. A reboot that reached the device returns whatever the status:
    the outcome carries the status, the status text and the body of the
    answer, with [ok] true exactly for 200.  An error of the request is
    written with [console.error] and thrown; without an answer, or with
    an answer cut short, the reboot never settles. *)
Theorem reboot_outcome (ip board : string) (w : W) (o : options) (b : option payload)
    (x : exchange) :
  exchanges (observed env (rebootDevice ip board) w) = [(o, b, x)] ->
  match x with
  | Responded st msg chunks =>
      ending env (rebootDevice ip board) w =
      Returned (Response (st =? 200) st msg (collect chunks))
  | Errored e =>
      ending env (rebootDevice ip board) w = Threw e /\
      errors (observed env (rebootDevice ip board) w) =
      [[Lit "[FIRMWARE] Reboot error:"; Err e]]
  | Silent => ending env (rebootDevice ip board) w = Pending
  | Aborted _ _ _ => ending env (rebootDevice ip board) w = Pending
  end.
Proof.
  unfold rebootDevice. explore env; views; intros H; try discriminate H;
    injection H as <- <- <-; cbn beta iota; try reflexivity.
  split; reflexivity.
Qed.

End InfoAndReboot.

(** ** Runs of the command line *)

Section CliRuns.
Context {W : Type} (env : world W).
Variable JSON_parse : string -> result value.

Lemma accesses_app (t1 t2 : list obs) : accesses (t1 ++ t2) = accesses t1 ++ accesses t2.
Proof.
  induction t1 as [|x t1 IH]; cbn [accesses app]; [reflexivity|].
  destruct (access_of x); rewrite IH; reflexivity.
Qed.

Lemma listings_app (t1 t2 : list obs) : listings (t1 ++ t2) = listings t1 ++ listings t2.
Proof.
  induction t1 as [|x t1 IH]; cbn [listings app]; [reflexivity|].
  destruct (listing_of x); rewrite IH; reflexivity.
Qed.

Lemma accesses_none (t : list obs) : Forall no_access (map ev t) -> accesses t = [].
Proof.
  induction t as [|[e a] t IH]; cbn [map ev accesses]; [reflexivity|].
  intros H. apply Forall_cons_iff in H. destruct H as [He Ht].
  destruct e; cbn [access_of]; try (apply IH, Ht). destruct He.
Qed.

Lemma listings_none (t : list obs) : Forall no_access (map ev t) -> listings t = [].
Proof.
  induction t as [|[e a] t IH]; cbn [map ev listings]; [reflexivity|].
  intros H. apply Forall_cons_iff in H. destruct H as [He Ht].
  destruct e; cbn [listing_of]; try (apply IH, Ht). destruct He.
Qed.

(** The update never calls [fs.access] or [fs.readdir]. *)
Lemma update_no_access (ip mainPath rearPath : string) :
  always no_access (executeFirmwareUpdate JSON_parse ip mainPath rearPath).
Proof.
  unfold executeFirmwareUpdate, getDeviceInfo, uploadFirmware, rebootDevice,
    request, interpolate.
  safe.
Qed.

(** Every path through [testDeviceConnection], in every world. *)
Lemma probe_facts (ip : string) (w : W) (t : list obs)
    (o : outcome (option identity)) (w' : W) :
  run env (testDeviceConnection JSON_parse ip) w = (t, o, w') ->
  probe_shape ip (listings t) (accesses t) (exchanges t) (wire t) (reads t) (errors t) o.
Proof.
  unfold testDeviceConnection, GET_probe.
  explore env; intros Hrun; injection Hrun as <- <- _; views;
    cbn [accesses access_of listings listing_of]; unfold probe_shape.
  all: do 4 (split; [reflexivity|]).
  all: first
         [ left; repeat split; assumption
         | right; eexists; split; [assumption|]; split; [reflexivity|]; split; [reflexivity|];
           first [ left; split; [reflexivity | intros; discriminate]
                 | right; left; do 4 eexists; split; reflexivity
                 | right; right; do 3 eexists; split; reflexivity ] ].
Qed.

Ltac tidy :=
  repeat first
    [ progress cbn [exchanges exchange_of reads read_of errors wire on_wire
                    accesses access_of listings listing_of ev app fst snd]
    | rewrite exchanges_app
    | rewrite wire_app
    | rewrite reads_app
    | rewrite errors_app
    | rewrite accesses_app
    | rewrite listings_app
    | rewrite app_nil_r
    | match goal with
      | H : exchanges _ = _ |- _ => rewrite H
      | H : wire _ = _ |- _ => rewrite H
      | H : reads _ = _ |- _ => rewrite H
      | H : errors _ = _ |- _ => rewrite H
      | H : accesses _ = _ |- _ => rewrite H
      | H : listings _ = _ |- _ => rewrite H
      end ].

Ltac event env :=
  cbn [bind try_catch log log_error trigger run];
  match goal with
  | |- context [env ?w ?e] => destruct (env w e) as [[] ?]
  end;
  cbn [bind try_catch log log_error trigger run].

(** [found tL] gives the first part of a run of the command line that
    got past the locator. *)
Ltac found tL :=
  match goal with
  | |- exists rest x, ?t = tL ++ rest /\ _ =>
      match t with
      | tL ++ ?rest => exists rest
      | (tL ++ ?rest) ++ ?last => exists (rest ++ last); rewrite <- (app_assoc tL rest last)
      end
  end.

(** A run of the command line is a run of the locator, then of the
    prober, then of the update, each as far as the one before allows. *)
Lemma cli_facts (dir : string) (args : list string) (w : W)
    (t : list obs) (o : outcome unit) (w' : W) :
  run env (cli JSON_parse dir args) w = (t, o, w') ->
  cli_shape env JSON_parse dir (target args) t o.
Proof.
  unfold cli. cbv zeta. fold (target args). set (ip := target args).
  rewrite run_try_catch, run_bind.
  destruct (run env (findLatestFirmwareFiles dir) w) as [[tL oL] wL] eqn:EL.
  destruct (locator_facts _ _ _ _ _ _ EL) as (HLx & HLw & HLr & HLe & HLo & _).
  destruct HLo as [(files & m & r & -> & HLl & Hm & Hr & HLa)|(msg & ->)].
  2:{ event env. intros H. injection H as <- <- _. left. tidy.
      repeat split. eexists. reflexivity. }
  do 4 event env.
  rewrite run_bind.
  destruct (run env (testDeviceConnection JSON_parse ip) _) as [[tP oP] wP] eqn:EP.
  destruct (probe_facts _ _ _ _ _ EP) as (HPl & HPa & HPr & HPe & HP).
  destruct HP as [(HPx & HPw & Hhost & ->)|(x & Hhost & HPx & HPw & HP)].
  { event env. intros H. injection H as <- <- _. left. tidy.
    repeat split. eexists. reflexivity. }
  destruct HP as [(-> & Hna)|[(d & st & msg & chunks & -> & ->)|(st & msg & chunks & -> & ->)]].
  { do 2 event env. intros H. injection H as <- <- _. right.
    exists files, m, r, tL. found tL. exists x. split; [reflexivity|]. tidy.
    do 10 (split; [first [reflexivity | assumption]|]).
    left. repeat split. exact Hna. }
  2:{ intros H. injection H as <- <- _. right.
      exists files, m, r, tL. found tL. exists (Aborted st msg chunks).
      split; [reflexivity|]. tidy.
      do 10 (split; [first [reflexivity | assumption]|]).
      right; left. exists st, msg, chunks. repeat split. }
  do 2 event env.
  rewrite run_bind. cbn [main rear].
  match goal with
  | |- context [run env (executeFirmwareUpdate _ _ _ _) ?w6] => rename w6 into w5
  end.
  destruct (run env (executeFirmwareUpdate JSON_parse ip _ _) _) as [[tU oU] wU] eqn:EU.
  pose proof (always_observed _ env _ w5
                (update_no_access ip (path_join dir m) (path_join dir r))) as Hno.
  unfold observed in Hno. rewrite EU in Hno. cbn [fst] in Hno.
  pose proof (accesses_none _ Hno) as HUa.
  pose proof (listings_none _ Hno) as HUl.
  destruct oU as [[]|e|c|].
  - do 2 event env. intros H. injection H as <- <- _. right.
    exists files, m, r, tL. found tL. exists (Responded st msg chunks).
    split; [reflexivity|]. tidy.
    do 10 (split; [first [reflexivity | assumption]|]).
    right; right. exists tU, (Returned tt), w5, wU, st, msg, chunks.
    repeat split. exact EU.
  - event env. intros H. injection H as <- <- _. right.
    exists files, m, r, tL. found tL. exists (Responded st msg chunks).
    split; [reflexivity|]. tidy.
    do 10 (split; [first [reflexivity | assumption]|]).
    right; right. exists tU, (Threw e), w5, wU, st, msg, chunks.
    repeat split. exact EU.
  - intros H. injection H as <- <- _. right.
    exists files, m, r, tL. found tL. exists (Responded st msg chunks).
    split; [reflexivity|]. tidy.
    do 10 (split; [first [reflexivity | assumption]|]).
    right; right. exists tU, (Exited c), w5, wU, st, msg, chunks.
    repeat split. exact EU.
  - intros H. injection H as <- <- _. right.
    exists files, m, r, tL. found tL. exists (Responded st msg chunks).
    split; [reflexivity|]. tidy.
    do 10 (split; [first [reflexivity | assumption]|]).
    right; right. exists tU, Pending, w5, wU, st, msg, chunks.
    repeat split. exact EU.
Qed.

(** X15. The command line ends in one of three ways: it returns (exit
    status 0), it calls [process.exit(1)], or it hangs on a device that
    does not answer.  No error escapes it, and 1 is the only status it
    ever passes to [process.exit]. *)
Theorem cli_exit_status (dir : string) (args : list string) (w : W) :
  ending env (cli JSON_parse dir args) w = Returned tt \/
  ending env (cli JSON_parse dir args) w = Exited 1 \/
  ending env (cli JSON_parse dir args) w = Pending.
Proof.
  unfold ending.
  destruct (run env (cli JSON_parse dir args) w) as [[t o] w'] eqn:E. cbn [fst snd].
  destruct (cli_facts _ _ _ _ _ _ E)
    as [(_ & _ & -> & _)|(files & m & r & found & rest & x & _ & _ & _ & _ & _ & _ & _ & _
                          & _ & _ & _ & H)]; [tauto|].
  destruct H as [(_ & _ & _ & -> & _)|[(st & msg & chunks & _ & _ & -> & _)|H]];
    [tauto | tauto |].
  destruct H as (tU & oU & w1 & wU & st & msg & chunks & _ & EU & _ & _ & _ & Ho).
  destruct oU as [[]|e|c|].
  - destruct Ho as [-> _]. tauto.
  - destruct Ho as [-> _]. tauto.
  - exfalso.
    exact (proj1 (proj2 (proj2 (proj2 (proj2 (proj2 (proj2
             (update_facts env JSON_parse _ _ _ _ _ _ _ EU))))))) c eq_refl).
  - subst o. tauto.
Qed.

(** X16. A run of the command line that returns has listed the firmware
    directory, had [fs.access] accept the latest main file and the latest
    rear file of that listing, probed the target, read these two files,
    and taken the target through the whole ten-step sequence with what it
    read. *)
Theorem cli_success_runs_whole_sequence (dir : string) (args : list string) (w : W)
    (t : list obs) (w' : W) :
  run env (cli JSON_parse dir args) w = (t, Returned tt, w') ->
  exists files m r mainFirmware rearFirmware,
    listings t = [(dir, Ok files)] /\
    latest "main_" files m /\ latest "rear_" files r /\
    accesses t = [(path_join dir m, Ok tt); (path_join dir r, Ok tt)] /\
    reads t = [(path_join dir m, Ok mainFirmware); (path_join dir r, Ok rearFirmware)] /\
    wire t = HttpRequest (GET_probe (target args)) None
             :: sequence (target args) mainFirmware rearFirmware.
Proof.
  intros E.
  destruct (cli_facts _ _ _ _ _ _ E)
    as [(_ & _ & Ho & _)|(files & m & r & found & rest & x & -> & _ & Hl & Hm & Hr & Ha
                          & _ & Hfw & Hfr & Hrl & Hra & H)];
    [discriminate Ho|].
  destruct H as [(_ & _ & _ & Ho & _)|[(st & msg & chunks & _ & _ & Ho & _)|H]];
    [discriminate Ho | discriminate Ho |].
  destruct H as (tU & oU & w1 & wU & st & msg & chunks & _ & EU & _ & Hw & Hrd & Ho).
  pose proof (update_facts env JSON_parse _ _ _ _ _ _ _ EU) as HU.
  destruct oU as [[]|e|c|].
  - destruct (proj1 (proj2 (proj2 (proj2 (proj2 (proj2 (proj2 (proj2 HU))))))) eq_refl)
      as (fm & fr & Hseq & Hreads).
    exists files, m, r, fm, fr.
    rewrite listings_app, accesses_app, reads_app, wire_app.
    rewrite Hl, Hrl, Ha, Hra, Hfr, Hrd, Hreads, Hfw, Hw, Hseq.
    split; [reflexivity|]. split; [exact Hm|]. split; [exact Hr|].
    repeat split.
  - destruct Ho as [Ho _]. discriminate Ho.
  - exfalso. exact (proj1 (proj2 (proj2 (proj2 (proj2 (proj2 (proj2 HU)))))) c eq_refl).
  - discriminate Ho.
Qed.

(** X17. The command line sends nothing to a device before it has found
    both firmware files: a run with any request at all splits in two
    parts.  In the first, without a request, the directory was listed and
    [fs.access] accepted the latest main file and the latest rear file of
    the listing; the requests are all in the second, and the first of
    them is the probe of the target. *)
Theorem no_request_without_firmware (dir : string) (args : list string) (w : W)
    (t : list obs) (o : outcome unit) (w' : W) :
  run env (cli JSON_parse dir args) w = (t, o, w') ->
  exchanges t <> [] ->
  exists files m r found rest x after,
    t = found ++ rest /\
    listings found = [(dir, Ok files)] /\
    latest "main_" files m /\ latest "rear_" files r /\
    accesses found = [(path_join dir m, Ok tt); (path_join dir r, Ok tt)] /\
    exchanges found = [] /\
    exchanges rest = (GET_probe (target args), None, x) :: after.
Proof.
  intros E Hne.
  destruct (cli_facts _ _ _ _ _ _ E)
    as [(Hx & _)|(files & m & r & found & rest & x & Ht & _ & Hl & Hm & Hr & Ha
                  & Hfx & _ & _ & _ & _ & H)];
    [contradiction|].
  destruct H as [(Hx & _)|[(st & msg & chunks & _ & Hx & _)|H]].
  - exists files, m, r, found, rest, x, []. repeat (split; [assumption|]); assumption.
  - exists files, m, r, found, rest, x, []. repeat (split; [assumption|]); assumption.
  - destruct H as (tU & oU & w1 & wU & st & msg & chunks & _ & _ & Hx & _).
    exists files, m, r, found, rest, x, (exchanges tU). repeat (split; [assumption|]); assumption.
Qed.

(** X18. When the probe gets no answer (an error of the request, or the
    3000 ms timeout), the command line sends nothing more, writes the two
    lines of advice with [console.error] and exits with status 1. *)
Theorem failed_probe_stops_cli (dir : string) (args : list string) (w : W)
    (t : list obs) (o : outcome unit) (w' : W)
    (op : options) (b : option payload) (x : exchange)
    (rest : list (options * option payload * exchange)) :
  run env (cli JSON_parse dir args) w = (t, o, w') ->
  exchanges t = (op, b, x) :: rest ->
  (forall st msg chunks, x <> Responded st msg chunks) ->
  (forall st msg chunks, x <> Aborted st msg chunks) ->
  o = Exited 1 /\ rest = [] /\
  errors t =
  [[Lit "[DISCOVERY] Failed to connect to device at "; Lit (target args)];
   [Lit "Make sure the device is powered on and accessible at this IP address"]].
Proof.
  intros E Hx Hno Hcut.
  destruct (cli_facts _ _ _ _ _ _ E)
    as [(Hx' & _)|(files & m & r & found & more & x' & -> & _ & _ & _ & _ & _
                   & Hfx & _ & _ & _ & _ & H)].
  { rewrite Hx' in Hx. discriminate Hx. }
  rewrite exchanges_app, Hfx in Hx. cbn [app] in Hx.
  destruct H as [(Hx' & _ & _ & Ho & He)|[(st & msg & chunks & -> & Hx' & _)|H]].
  - rewrite Hx' in Hx. injection Hx as _ _ _ <-. repeat split; assumption.
  - rewrite Hx' in Hx. injection Hx as _ _ <- _. exfalso. exact (Hcut _ _ _ eq_refl).
  - destruct H as (tU & oU & w1 & wU & st & msg & chunks & -> & _ & Hx' & _).
    rewrite Hx' in Hx. injection Hx as _ _ <- _. exfalso. exact (Hno _ _ _ eq_refl).
Qed.

(** X19. The command line never exits with status 1 silently: the last
    line it wrote with [console.error] is [[FIRMWARE] Error:] with a
    message, or the advice that follows a failed probe. *)
Theorem cli_failure_is_reported (dir : string) (args : list string) (w : W)
    (t : list obs) (w' : W) :
  run env (cli JSON_parse dir args) w = (t, Exited 1, w') ->
  exists before line,
    errors t = before ++ [line] /\
    ((exists msg, line = [Lit "[FIRMWARE] Error:"; Lit msg]) \/
     line = [Lit "Make sure the device is powered on and accessible at this IP address"]).
Proof.
  intros E.
  destruct (cli_facts _ _ _ _ _ _ E)
    as [(_ & _ & _ & msg & He)|(files & m & r & found & rest & x & _ & _ & _ & _ & _ & _
                                & _ & _ & _ & _ & _ & H)].
  { exists [], [Lit "[FIRMWARE] Error:"; Lit msg]. split; [exact He|].
    left. eexists; reflexivity. }
  destruct H as [(_ & _ & _ & _ & He)|[(st & msg & chunks & _ & _ & Ho & _)|H]].
  - eexists [_], _. split; [exact He|]. right. reflexivity.
  - discriminate Ho.
  - destruct H as (tU & oU & w1 & wU & st & msg & chunks & _ & EU & _ & _ & _ & Ho).
    destruct oU as [[]|e|c|].
    + destruct Ho as [Ho _]. discriminate Ho.
    + destruct Ho as [_ He].
      exists (errors tU), [Lit "[FIRMWARE] Error:"; Lit (message e)].
      split; [exact He|]. left. eexists; reflexivity.
    + exfalso.
      exact (proj1 (proj2 (proj2 (proj2 (proj2 (proj2 (proj2
               (update_facts env JSON_parse _ _ _ _ _ _ _ EU))))))) c eq_refl).
    + discriminate Ho.
Qed.

(** X20. When the device answers an upload or a reboot of the command
    line with a status other than 200, the command line exits with
    status 1, and the failure is reported twice, in this order: by the
    update ([[FIRMWARE] Update failed:]) and by the command line
    ([[FIRMWARE] Error:]), both with the name of the step and the
    status. *)
Theorem cli_reports_failed_step (dir : string) (args : list string) (w : W)
    (t : list obs) (o : outcome unit) (w' : W)
    (op : options) (b : option payload) (st : Z) (msg : string) (chunks : list string)
    (name : string) :
  run env (cli JSON_parse dir args) w = (t, o, w') ->
  In (op, b, Responded st msg chunks) (exchanges t) ->
  step_name (path op) = Some name ->
  st <> 200 ->
  o = Exited 1 /\
  exists before,
    errors t =
    before ++ [[Lit "[FIRMWARE] Update failed:";
                Lit (name ++ " failed: " ++ JsString.of_Z st)%string];
               [Lit "[FIRMWARE] Error:";
                Lit (name ++ " failed: " ++ JsString.of_Z st)%string]].
Proof.
  intros E Hin Hname Hst.
  destruct (cli_facts _ _ _ _ _ _ E)
    as [(Hx & _)|(files & m & r & found & rest & x & -> & _ & _ & _ & _ & _
                  & Hfx & _ & _ & _ & _ & H)].
  { rewrite Hx in Hin. destruct Hin. }
  rewrite exchanges_app, Hfx in Hin. cbn [app] in Hin.
  destruct H as [(Hx & _)|[(st' & msg' & chunks' & -> & Hx & _)|H]].
  - rewrite Hx in Hin. destruct Hin as [Hin|[]]. injection Hin as <- _ _.
    discriminate Hname.
  - rewrite Hx in Hin. destruct Hin as [Hin|[]]. discriminate Hin.
  - destruct H as (tU & oU & w1 & wU & st' & msg' & chunks' & -> & EU & Hx & _ & _ & Ho).
    rewrite Hx in Hin. destruct Hin as [Hin|Hin].
    { injection Hin as <- _ _ _ _. discriminate Hname. }
    pose proof (update_facts env JSON_parse _ _ _ _ _ _ _ EU) as HU.
    pose proof (proj2 (proj2 (proj2 (proj2 (proj2 (proj2 (proj2 (proj2 HU)))))))
                  _ _ _ _ _ _ Hin Hname Hst) as HoU.
    subst oU. destruct Ho as [-> He]. split; [reflexivity|].
    destruct (proj1 (proj2 (proj2 (proj2 (proj2 (proj2 HU))))) _ eq_refl) as (before & Hb).
    exists before. rewrite He, Hb, <- app_assoc. reflexivity.
Qed.

(** X21. Every request of a run of the command line goes to port 8000 of
    one host: the first command-line argument, or [10.110.73.155] when
    there is none (or when it is the empty string). *)
Theorem cli_requests_go_to_target (dir : string) (args : list string) (w : W)
    (o : options) (b : option payload) (x : exchange) :
  In (o, b, x) (exchanges (observed env (cli JSON_parse dir args) w)) ->
  hostname o = target args /\ port o = 8000 /\
  (args = [] -> hostname o = "10.110.73.155") /\
  (forall a rest, args = a :: rest -> a <> "" -> hostname o = a).
Proof.
  intros Hin. apply exchanges_in_trace in Hin.
  pose proof (always_observed _ env _ w (cli_in_protocol JSON_parse dir args)) as Hall.
  rewrite Forall_forall in Hall. specialize (Hall _ Hin). cbn [in_protocol] in Hall.
  assert (Hh : hostname o = target args /\ port o = 8000).
  { destruct Hall as [H|[H|[(fw & H)|[(fw & H)|[H|H]]]]]; injection H as -> _;
      split; reflexivity. }
  destruct Hh as [Hh Hp]. repeat split; try assumption.
  - intros ->. exact Hh.
  - intros a rest -> Ha. rewrite Hh. cbn [target].
    destruct (String.eqb_spec a ""); [contradiction | reflexivity].
Qed.

(** X23. An address that [http.request] refuses as a host name (one
    with a control character other than the tab) reaches no device.  The
    prober, the info fetch, the upload and the reboot each throw the
    [TypeError] of [http.request] and send nothing; so does the update;
    and the command line run on that address exits with status 1 without
    a single request. *)
Theorem refused_host_reaches_no_device (ip : string) (w : W) :
  host_ok ip = false ->
  (exchanges (observed env (testDeviceConnection JSON_parse ip) w) = [] /\
   ending env (testDeviceConnection JSON_parse ip) w = Threw invalid_host) /\
  (exchanges (observed env (getDeviceInfo JSON_parse ip) w) = [] /\
   ending env (getDeviceInfo JSON_parse ip) w = Threw invalid_host) /\
  (forall firmware isMain,
     exchanges (observed env (uploadFirmware ip firmware isMain) w) = [] /\
     ending env (uploadFirmware ip firmware isMain) w = Threw invalid_host) /\
  (forall board, path_ok board = true ->
     exchanges (observed env (rebootDevice ip board) w) = [] /\
     ending env (rebootDevice ip board) w = Threw invalid_host) /\
  (forall mainPath rearPath,
     wire (observed env (executeFirmwareUpdate JSON_parse ip mainPath rearPath) w) = [] /\
     ending env (executeFirmwareUpdate JSON_parse ip mainPath rearPath) w =
     Threw invalid_host) /\
  (forall dir args, ip = target args ->
     exchanges (observed env (cli JSON_parse dir args) w) = [] /\
     ending env (cli JSON_parse dir args) w = Exited 1).
Proof.
  intros Hhost. split; [|split; [|split; [|split; [|split]]]].
  - unfold testDeviceConnection. explore env; views; split; reflexivity.
  - unfold getDeviceInfo. explore env; views; split; reflexivity.
  - intros firmware isMain. unfold uploadFirmware.
    destruct isMain; explore env; views; split; reflexivity.
  - intros board Hboard. unfold rebootDevice. explore env; views;
      try (rewrite reboot_path_ok in *; congruence); split; reflexivity.
  - intros mainPath rearPath. unfold executeFirmwareUpdate, getDeviceInfo.
    explore env; views; split; reflexivity.
  - intros dir args ->. unfold observed, ending.
    destruct (run env (cli JSON_parse dir args) w) as [[t o] w'] eqn:E. cbn [fst snd].
    destruct (cli_facts _ _ _ _ _ _ E)
      as [(Hx & _ & Ho & _)|(? & ? & ? & ? & ? & ? & _ & Hok & _)];
      [split; assumption | congruence].
Qed.

(** X25. An answer cut short anywhere leaves the command line hanging:
    when the connection is closed in the middle of an answer, to the
    probe or to any request of the update, the command line neither
    returns nor exits. *)
Theorem aborted_answer_hangs_cli (dir : string) (args : list string) (w : W)
    (t : list obs) (o : outcome unit) (w' : W)
    (op : options) (b : option payload) (st : Z) (msg : string) (chunks : list string) :
  run env (cli JSON_parse dir args) w = (t, o, w') ->
  In (op, b, Aborted st msg chunks) (exchanges t) ->
  o = Pending.
Proof.
  intros E Hin.
  destruct (cli_facts _ _ _ _ _ _ E)
    as [(Hx & _)|(files & m & r & found & rest & x & -> & _ & _ & _ & _ & _
                  & Hfx & _ & _ & _ & _ & H)].
  { rewrite Hx in Hin. destruct Hin. }
  rewrite exchanges_app, Hfx in Hin. cbn [app] in Hin.
  destruct H as [(Hx & _ & Hna & _)|[(st' & msg' & chunks' & -> & Hx & Ho & _)|H]].
  - rewrite Hx in Hin. destruct Hin as [Hin|[]]. injection Hin as _ _ Hcut.
    exfalso. exact (Hna _ _ _ Hcut).
  - exact Ho.
  - destruct H as (tU & oU & w1 & wU & st' & msg' & chunks' & -> & EU & Hx & _ & _ & Ho).
    rewrite Hx in Hin. destruct Hin as [Hin|Hin]; [discriminate Hin|].
    pose proof (update_facts env JSON_parse _ _ _ _ _ _ _ EU) as HU.
    assert (HoU : oU = Pending).
    { refine (proj1 (proj1 (proj2 (proj2 (proj2 (proj2 HU)))) op b _ Hin (or_intror _))).
      do 3 eexists; reflexivity. }
    subst oU. exact Ho.
Qed.

End CliRuns.

(** ** Concrete runs of the further properties *)

#[warnings="-notation-for-abbreviation"] Local Notation sample_update :=
  (executeFirmwareUpdate Mock.parse "10.0.0.7" "/fw/main_2.signed.bin" "/fw/rear_2.signed.bin")
  (only parsing).

(** Neither file can be read: the update stops after the info fetch. *)
Lemma unreadable_firmware_stops_before_upload_witness :
  In ("/fw/main_2.signed.bin", Thrown (SystemError "EACCES" "EACCES: permission denied, open"))
     (reads (observed Mock.scripted sample_update Mock.unreadable)) /\
  ending Mock.scripted sample_update Mock.unreadable =
  Threw (SystemError "EACCES" "EACCES: permission denied, open") /\
  wire (observed Mock.scripted sample_update Mock.unreadable) = [GET_info "10.0.0.7"].
Proof.
  split; [vm_compute; tauto|].
  apply (unreadable_firmware_stops_before_upload Mock.scripted Mock.parse
           _ _ _ _ _ _ _ "/fw/main_2.signed.bin" _ (run_eta _ _ _)).
  vm_compute. tauto.
Defined.

(** The charger refuses the last info fetch: the update has succeeded. *)
Lemma final_fetch_failure_is_swallowed_witness :
  In (SetTimeout 20000) (wire (observed Mock.scripted sample_update Mock.still_rebooting)) /\
  ending Mock.scripted sample_update Mock.still_rebooting = Returned tt.
Proof.
  split; [vm_compute; tauto|].
  destruct (final_fetch_failure_is_swallowed Mock.scripted Mock.parse
              _ _ _ _ _ _ _ (run_eta _ sample_update Mock.still_rebooting)
              ltac:(vm_compute; tauto)) as [H|[[H _]|[H _]]];
    [exact H | discriminate H | discriminate H].
Defined.

(** The connection is reset during the main reboot. *)
Lemma request_error_aborts_update_witness :
  In (Options "10.0.0.7" 8000 "/api/v2/device/reboot?board=main" "POST" [("Content-Length", 4)] None,
      Some (Text "main"), Errored (SystemError "ECONNRESET" "socket hang up"))
     (exchanges (observed Mock.scripted sample_update Mock.reset_on_reboot)) /\
  ~ In (SetTimeout 20000) (wire (observed Mock.scripted sample_update Mock.reset_on_reboot)) /\
  ending Mock.scripted sample_update Mock.reset_on_reboot =
  Threw (SystemError "ECONNRESET" "socket hang up").
Proof.
  assert (Hin : In (Options "10.0.0.7" 8000 "/api/v2/device/reboot?board=main" "POST"
                            [("Content-Length", 4)] None,
                    Some (Text "main"), Errored (SystemError "ECONNRESET" "socket hang up"))
                   (exchanges (observed Mock.scripted sample_update Mock.reset_on_reboot)))
    by (vm_compute; tauto).
  assert (Hno : ~ In (SetTimeout 20000)
                     (wire (observed Mock.scripted sample_update Mock.reset_on_reboot))).
  { vm_compute. intros H. repeat (destruct H as [H|H]; [discriminate H|]). exact H. }
  split; [exact Hin|]. split; [exact Hno|].
  exact (proj1 (request_error_aborts_update Mock.scripted Mock.parse
                  _ _ _ _ _ _ _ _ _ _ (run_eta _ _ _) Hin Hno)).
Defined.

(** The charger stops answering after the main upload. *)
Lemma silent_device_hangs_update_witness :
  In (Options "10.0.0.7" 8000 "/api/v2/device/reboot?board=main" "POST" [("Content-Length", 4)] None,
      Some (Text "main"), Silent)
     (exchanges (observed Mock.scripted sample_update Mock.gone_after_upload)) /\
  ending Mock.scripted sample_update Mock.gone_after_upload = Pending.
Proof.
  assert (Hin : In (Options "10.0.0.7" 8000 "/api/v2/device/reboot?board=main" "POST"
                            [("Content-Length", 4)] None,
                    Some (Text "main"), Silent)
                   (exchanges (observed Mock.scripted sample_update Mock.gone_after_upload)))
    by (vm_compute; tauto).
  split; [exact Hin|].
  exact (proj1 (silent_device_hangs_update Mock.scripted Mock.parse
                  _ _ _ _ _ _ _ _ _ (run_eta _ _ _) Hin)).
Defined.

(** The refused main upload is reported before it is thrown. *)
Lemma update_failure_is_logged_witness :
  ending Mock.scripted sample_update Mock.main_upload_500 =
  Threw (Error "Main board firmware upload failed: 500") /\
  exists before,
    errors (observed Mock.scripted sample_update Mock.main_upload_500) =
    before ++ [[Lit "[FIRMWARE] Update failed:";
                Lit "Main board firmware upload failed: 500"]].
Proof.
  assert (Ho : ending Mock.scripted sample_update Mock.main_upload_500 =
               Threw (Error "Main board firmware upload failed: 500"))
    by (vm_compute; reflexivity).
  split; [exact Ho|].
  pose proof (run_eta Mock.scripted sample_update Mock.main_upload_500) as E.
  rewrite Ho in E.
  exact (update_failure_is_logged Mock.scripted Mock.parse _ _ _ _ _ _ _ E).
Defined.

(** Every answer is 200 and the update returns. *)
Lemma all_200_update_succeeds_witness :
  Forall (fun r => exists msg chunks, snd r = Responded 200 msg chunks)
         (exchanges (observed Mock.scripted sample_update Mock.updating)) /\
  ending Mock.scripted sample_update Mock.updating = Returned tt.
Proof.
  assert (Ha : Forall (fun r => exists msg chunks, snd r = Responded 200 msg chunks)
                      (exchanges (observed Mock.scripted sample_update Mock.updating))).
  { vm_compute. repeat constructor; do 2 eexists; reflexivity. }
  split; [exact Ha|].
  refine (proj1 (all_200_update_succeeds Mock.scripted Mock.parse
                   _ _ _ _ _ _ _ (run_eta _ _ _) _ Ha _ _)).
  - vm_compute. discriminate.
  - vm_compute. repeat constructor; eexists; reflexivity.
  - intros st msg chunks rest H. vm_compute in H. injection H as <- <- <- <-.
    exists Mock.charger. repeat split.
Defined.

#[warnings="-notation-for-abbreviation"] Local Notation sample_dir :=
  "/opt/klvr/firmware" (only parsing).

(** The firmware directory does not exist. *)
Lemma unreadable_directory_error_witness :
  fst (Mock.scripted Mock.missing_dir (FsReaddir sample_dir)) =
  Thrown (SystemError "ENOENT" "ENOENT: no such file or directory, scandir") /\
  ending Mock.scripted (findLatestFirmwareFiles sample_dir) Mock.missing_dir =
  Threw (Error "Failed to find firmware files: ENOENT: no such file or directory, scandir").
Proof.
  split; [reflexivity|].
  exact (proj1 (unreadable_directory_error Mock.scripted sample_dir Mock.missing_dir _ eq_refl)).
Defined.

(** The main image cannot be accessed: the rear image is not looked at. *)
Lemma inaccessible_file_error_witness :
  accesses (observed Mock.locked (findLatestFirmwareFiles sample_dir) Mock.healthy) =
  [("/opt/klvr/firmware/main_20230215.signed.bin",
    Thrown (SystemError "EACCES" "EACCES: permission denied, access"))] /\
  ending Mock.locked (findLatestFirmwareFiles sample_dir) Mock.healthy =
  Threw (Error "Failed to find firmware files: EACCES: permission denied, access").
Proof.
  assert (Ha : accesses (observed Mock.locked (findLatestFirmwareFiles sample_dir) Mock.healthy) =
               [("/opt/klvr/firmware/main_20230215.signed.bin",
                 Thrown (SystemError "EACCES" "EACCES: permission denied, access"))])
    by (vm_compute; reflexivity).
  split; [exact Ha|].
  refine (proj1 (inaccessible_file_error Mock.locked sample_dir Mock.healthy _ _ _
                   "/opt/klvr/firmware/main_20230215.signed.bin"
                   (SystemError "EACCES" "EACCES: permission denied, access")
                   (run_eta _ _ _) _)).
  rewrite Ha. left; reflexivity.
Defined.

(** Both images of the bundle were checked, main first. *)
Lemma bundle_files_were_checked_witness :
  ending Mock.scripted (findLatestFirmwareFiles sample_dir) Mock.healthy =
  Returned (Bundle "/opt/klvr/firmware/main_20230215.signed.bin"
                   "/opt/klvr/firmware/rear_20230215.signed.bin") /\
  accesses (observed Mock.scripted (findLatestFirmwareFiles sample_dir) Mock.healthy) =
  [("/opt/klvr/firmware/main_20230215.signed.bin", Ok tt);
   ("/opt/klvr/firmware/rear_20230215.signed.bin", Ok tt)].
Proof.
  assert (Ho : ending Mock.scripted (findLatestFirmwareFiles sample_dir) Mock.healthy =
               Returned (Bundle "/opt/klvr/firmware/main_20230215.signed.bin"
                                "/opt/klvr/firmware/rear_20230215.signed.bin"))
    by (vm_compute; reflexivity).
  split; [exact Ho|].
  pose proof (run_eta Mock.scripted (findLatestFirmwareFiles sample_dir) Mock.healthy) as E.
  rewrite Ho in E.
  exact (bundle_files_were_checked Mock.scripted _ _ _ _ _ E).
Defined.

(** A reboot answered with status 503 returns, with [ok] false. *)
Lemma reboot_outcome_witness :
  exchanges (observed Mock.scripted (rebootDevice "10.0.0.7" "rear") Mock.busy) =
  [(Options "10.0.0.7" 8000 "/api/v2/device/reboot?board=rear" "POST" [("Content-Length", 4)] None,
    Some (Text "rear"), Responded 503 "Service Unavailable" [])] /\
  ending Mock.scripted (rebootDevice "10.0.0.7" "rear") Mock.busy =
  Returned (Response false 503 "Service Unavailable" "").
Proof.
  split; [reflexivity|].
  exact (reboot_outcome Mock.scripted "10.0.0.7" "rear" Mock.busy _ _ _ eq_refl).
Defined.

#[warnings="-notation-for-abbreviation"] Local Notation sample_cli :=
  (cli Mock.parse sample_dir ["10.0.0.7"]) (only parsing).

(** A healthy charger: the command line finds the images of 15 February,
    probes, and goes through the ten steps with what it read. *)
Lemma cli_success_runs_whole_sequence_witness :
  ending Mock.scripted sample_cli Mock.healthy = Returned tt /\
  exists files m r mainFirmware rearFirmware,
    listings (observed Mock.scripted sample_cli Mock.healthy) = [(sample_dir, Ok files)] /\
    latest "main_" files m /\ latest "rear_" files r /\
    accesses (observed Mock.scripted sample_cli Mock.healthy) =
    [(path_join sample_dir m, Ok tt); (path_join sample_dir r, Ok tt)] /\
    reads (observed Mock.scripted sample_cli Mock.healthy) =
    [(path_join sample_dir m, Ok mainFirmware); (path_join sample_dir r, Ok rearFirmware)] /\
    wire (observed Mock.scripted sample_cli Mock.healthy) =
    HttpRequest (GET_probe "10.0.0.7") None
    :: sequence "10.0.0.7" mainFirmware rearFirmware.
Proof.
  assert (Ho : ending Mock.scripted sample_cli Mock.healthy = Returned tt)
    by (vm_compute; reflexivity).
  split; [exact Ho|].
  pose proof (run_eta Mock.scripted sample_cli Mock.healthy) as E.
  rewrite Ho in E.
  exact (cli_success_runs_whole_sequence Mock.scripted Mock.parse _ _ _ _ _ E).
Defined.

(** The probe was sent, so both images had been found before. *)
Lemma no_request_without_firmware_witness :
  exchanges (observed Mock.scripted sample_cli Mock.offline) <> [] /\
  exists files m r found rest x after,
    observed Mock.scripted sample_cli Mock.offline = found ++ rest /\
    listings found = [(sample_dir, Ok files)] /\
    latest "main_" files m /\ latest "rear_" files r /\
    accesses found = [(path_join sample_dir m, Ok tt); (path_join sample_dir r, Ok tt)] /\
    exchanges found = [] /\
    exchanges rest = (GET_probe "10.0.0.7", None, x) :: after.
Proof.
  assert (Hne : exchanges (observed Mock.scripted sample_cli Mock.offline) <> [])
    by (vm_compute; discriminate).
  split; [exact Hne|].
  exact (no_request_without_firmware Mock.scripted Mock.parse _ _ _ _ _ _
           (run_eta _ _ _) Hne).
Defined.

(** Nobody answers the probe: exit 1 after two lines of advice. *)
Lemma failed_probe_stops_cli_witness :
  exchanges (observed Mock.scripted sample_cli Mock.offline) =
  [(GET_probe "10.0.0.7", None, Silent)] /\
  ending Mock.scripted sample_cli Mock.offline = Exited 1.
Proof.
  assert (Hx : exchanges (observed Mock.scripted sample_cli Mock.offline) =
               [(GET_probe "10.0.0.7", None, Silent)])
    by (vm_compute; reflexivity).
  split; [exact Hx|].
  refine (proj1 (failed_probe_stops_cli Mock.scripted Mock.parse _ _ _ _ _ _ _ _ _ _
                   (run_eta _ _ _) Hx _ _)).
  - intros st msg chunks H. discriminate H.
  - intros st msg chunks H. discriminate H.
Defined.

(** No firmware directory: exit 1, and the reason is the last line
    printed. *)
Lemma cli_failure_is_reported_witness :
  ending Mock.scripted sample_cli Mock.missing_dir = Exited 1 /\
  exists before line,
    errors (observed Mock.scripted sample_cli Mock.missing_dir) = before ++ [line] /\
    ((exists msg, line = [Lit "[FIRMWARE] Error:"; Lit msg]) \/
     line = [Lit "Make sure the device is powered on and accessible at this IP address"]).
Proof.
  assert (Ho : ending Mock.scripted sample_cli Mock.missing_dir = Exited 1)
    by (vm_compute; reflexivity).
  split; [exact Ho|].
  pose proof (run_eta Mock.scripted sample_cli Mock.missing_dir) as E.
  rewrite Ho in E.
  exact (cli_failure_is_reported Mock.scripted Mock.parse _ _ _ _ _ E).
Defined.

(** The main upload is refused with 500: exit 1, and the step and the
    status are printed. *)
Lemma cli_reports_failed_step_witness :
  In (Options "10.0.0.7" 8000 "/api/v2/device/firmware_charger" "POST"
              [("Content-Length", 4)] None,
      Some (Buffer Mock.firmware), Responded 500 "Internal Server Error" ["flash busy"])
     (exchanges (observed Mock.scripted sample_cli Mock.refusing)) /\
  ending Mock.scripted sample_cli Mock.refusing = Exited 1 /\
  exists before,
    errors (observed Mock.scripted sample_cli Mock.refusing) =
    before ++ [[Lit "[FIRMWARE] Update failed:";
                Lit "Main board firmware upload failed: 500"];
               [Lit "[FIRMWARE] Error:";
                Lit "Main board firmware upload failed: 500"]].
Proof.
  assert (Hin : In (Options "10.0.0.7" 8000 "/api/v2/device/firmware_charger" "POST"
                            [("Content-Length", 4)] None,
                    Some (Buffer Mock.firmware),
                    Responded 500 "Internal Server Error" ["flash busy"])
                   (exchanges (observed Mock.scripted sample_cli Mock.refusing)))
    by (vm_compute; tauto).
  split; [exact Hin|].
  exact (cli_reports_failed_step Mock.scripted Mock.parse _ _ _ _ _ _ _ _ _ _ _
           "Main board firmware upload" (run_eta _ _ _) Hin eq_refl ltac:(discriminate)).
Defined.

(** Every request of the run goes to the address given on the command
    line. *)
Lemma cli_requests_go_to_target_witness :
  In (Options "10.0.0.7" 8000 "/api/v2/device/reboot?board=rear" "POST" [("Content-Length", 4)] None,
      Some (Text "rear"), Responded 200 "OK" ["ok"])
     (exchanges (observed Mock.scripted sample_cli Mock.healthy)) /\
  hostname (Options "10.0.0.7" 8000 "/api/v2/device/reboot?board=rear" "POST"
                    [("Content-Length", 4)] None) = "10.0.0.7".
Proof.
  assert (Hin : In (Options "10.0.0.7" 8000 "/api/v2/device/reboot?board=rear" "POST"
                            [("Content-Length", 4)] None,
                    Some (Text "rear"), Responded 200 "OK" ["ok"])
                   (exchanges (observed Mock.scripted sample_cli Mock.healthy)))
    by (vm_compute; tauto).
  split; [exact Hin|].
  exact (proj1 (cli_requests_go_to_target Mock.scripted Mock.parse _ _ _ _ _ _ Hin)).
Defined.

(** A board name with a space in it is refused before anything is sent. *)
Lemma reboot_refused_path_witness :
  path_ok "rear board" = false /\
  exchanges (observed Mock.scripted (rebootDevice "10.0.0.7" "rear board") Mock.healthy) = [] /\
  ending Mock.scripted (rebootDevice "10.0.0.7" "rear board") Mock.healthy =
  Threw (TypeError "Request path contains unescaped characters").
Proof.
  split; [reflexivity|].
  exact (reboot_refused_path Mock.scripted "10.0.0.7" "rear board" Mock.healthy eq_refl).
Defined.


(** An info answer of status 500 with a description is returned all the
    same. *)
Lemma get_info_outcome_witness :
  In (Options "10.0.0.7" 8000 "/api/v2/device/info" "GET" [] None, None,
      Responded 500 "Internal Server Error" [Mock.doc_charger])
     (exchanges (observed Mock.scripted (getDeviceInfo Mock.parse "10.0.0.7") Mock.info_500)) /\
  ending Mock.scripted (getDeviceInfo Mock.parse "10.0.0.7") Mock.info_500 =
  Returned Mock.charger.
Proof.
  assert (Hin : In (Options "10.0.0.7" 8000 "/api/v2/device/info" "GET" [] None, None,
                    Responded 500 "Internal Server Error" [Mock.doc_charger])
                   (exchanges (observed Mock.scripted (getDeviceInfo Mock.parse "10.0.0.7")
                                 Mock.info_500)))
    by (left; reflexivity).
  split; [exact Hin|].
  destruct (get_info_outcome Mock.scripted Mock.parse "10.0.0.7" Mock.info_500 _ _ _ Hin)
    as (_ & Hok & _).
  exact (Hok Mock.charger eq_refl eq_refl eq_refl).
Defined.

(** The connection is closed in the middle of the answer to the main
    upload. *)
Lemma aborted_answer_hangs_update_witness :
  In (Options "10.0.0.7" 8000 "/api/v2/device/firmware_charger" "POST"
              [("Content-Length", 4)] None,
      Some (Buffer Mock.firmware), Aborted 200 "OK" ["o"])
     (exchanges (observed Mock.scripted sample_update Mock.upload_cut)) /\
  ending Mock.scripted sample_update Mock.upload_cut = Pending.
Proof.
  assert (Hin : In (Options "10.0.0.7" 8000 "/api/v2/device/firmware_charger" "POST"
                            [("Content-Length", 4)] None,
                    Some (Buffer Mock.firmware), Aborted 200 "OK" ["o"])
                   (exchanges (observed Mock.scripted sample_update Mock.upload_cut)))
    by (vm_compute; tauto).
  split; [exact Hin|].
  exact (proj1 (aborted_answer_hangs_update Mock.scripted Mock.parse
                  _ _ _ _ _ _ _ _ _ _ _ _ (run_eta _ _ _) Hin)).
Defined.

(** The connection is closed in the middle of the answer to the probe of
    the command line. *)
Lemma aborted_answer_hangs_cli_witness :
  In (GET_probe "10.0.0.7", None, Aborted 200 "OK" ["{"])
     (exchanges (observed Mock.scripted sample_cli Mock.cut_short)) /\
  ending Mock.scripted sample_cli Mock.cut_short = Pending.
Proof.
  assert (Hin : In (GET_probe "10.0.0.7", None, Aborted 200 "OK" ["{"])
                   (exchanges (observed Mock.scripted sample_cli Mock.cut_short)))
    by (vm_compute; tauto).
  split; [exact Hin|].
  exact (aborted_answer_hangs_cli Mock.scripted Mock.parse _ _ _ _ _ _ _ _ _ _ _
           (run_eta _ _ _) Hin).
Defined.

(** An address with a carriage return at its end: the update throws, and
    the command line exits with status 1. *)
Lemma refused_host_reaches_no_device_witness :
  host_ok Mock.with_cr = false /\
  ending Mock.scripted
         (executeFirmwareUpdate Mock.parse Mock.with_cr
            "/fw/main_2.signed.bin" "/fw/rear_2.signed.bin")
         Mock.updating = Threw invalid_host /\
  ending Mock.scripted (cli Mock.parse sample_dir [Mock.with_cr]) Mock.healthy = Exited 1.
Proof.
  split; [reflexivity|].
  destruct (refused_host_reaches_no_device Mock.scripted Mock.parse Mock.with_cr
              Mock.updating eq_refl)
    as (_ & _ & _ & _ & Hu & _).
  destruct (refused_host_reaches_no_device Mock.scripted Mock.parse Mock.with_cr
              Mock.healthy eq_refl)
    as (_ & _ & _ & _ & _ & Hc).
  split; [exact (proj2 (Hu _ _)) | exact (proj2 (Hc sample_dir [Mock.with_cr] eq_refl))].
Defined.
